(** * Exam lifecycle and auto-grading engine of weblearn (src/app.py)

    A shallow embedding of the exam generator ([generate_exam_questions],
    [generate_exam]), the session store ([create_exam_session],
    [start_exam], [save_answer]), the scoring engine
    ([calculate_exam_score]) and the record archive ([submit_exam],
    [get_exam_records]), followed by the properties of the specification
    stated over it.

    Modelling conventions.
    - A Python [str] is the list of its code points.
    - A JSON value is a [pyval]. JSON numbers are integers: exams and
      answers with fractional numbers are outside the model. The one float
      the engine computes itself, the percentage, is kept as the two
      integers it is computed from.
    - A Python exception is a value of [exn]; code that can raise returns a
      [result], and a [try ... except Exception] is a [match] on it.
    - The clock, the random part of a session id, [json.loads], the language
      model and the order of [os.listdir] are inputs of the functions that
      use them.
    - The upload folder is a [store]: two finite maps from file names to
      units, one for the sessions and one for the archive. Session ids are
      file-name stems, so the two folders do not overlap. *)

From Stdlib Require Import ZArith List Ascii String Lia Bool Sorted.
From Stdlib Require Import DecimalString DecimalZ.
From stdpp Require Import gmap list.
Import ListNotations.

Local Open Scope Z_scope.

(** ** Python strings *)

Definition pystr := list Z.

(** An ASCII literal as a Python string. *)
Definition lit (s : string) : pystr :=
  map (fun a => Z.of_N (N_of_ascii a)) (list_ascii_of_string s).

Definition pystr_eqb (a b : pystr) : bool := bool_decide (a = b).

(** [str.isspace] of a single code point (the Unicode white-space set of
    CPython). *)
Definition is_space (c : Z) : bool :=
  ((9 <=? c) && (c <=? 13)) || ((28 <=? c) && (c <=? 32))
  || (c =? 133) || (c =? 160) || (c =? 5760)
  || ((8192 <=? c) && (c <=? 8202))
  || (c =? 8232) || (c =? 8233) || (c =? 8239) || (c =? 8287) || (c =? 12288).

Fixpoint lstrip (s : pystr) : pystr :=
  match s with
  | c :: s' => if is_space c then lstrip s' else s
  | [] => []
  end.

Definition rstrip (s : pystr) : pystr := rev (lstrip (rev s)).

(** [s.strip()] *)
Definition strip (s : pystr) : pystr := rstrip (lstrip s).

(** [s.upper()] and [s.lower()]: the ASCII letters are mapped, every other
    code point is kept. This is exact wherever the engine looks at the
    outcome through ASCII: no string with a code point outside ASCII has an
    upper-case form among the letters A to F, and no code point outside
    ASCII has a lower-case form that contains a letter of "true" or
    "false". Only the legacy comparison of two upper-cased judge texts sees
    more of Unicode's case mapping than this. *)
Definition upper_char (c : Z) : Z :=
  if (97 <=? c) && (c <=? 122) then c - 32 else c.

Definition lower_char (c : Z) : Z :=
  if (65 <=? c) && (c <=? 90) then c + 32 else c.

Definition upper (s : pystr) : pystr := map upper_char s.
Definition lower (s : pystr) : pystr := map lower_char s.

Fixpoint is_prefix (p s : pystr) : bool :=
  match p, s with
  | [], _ => true
  | a :: p', b :: s' => (a =? b) && is_prefix p' s'
  | _ :: _, [] => false
  end.

(** [p in s] for two strings. *)
Fixpoint is_substring (p s : pystr) : bool :=
  is_prefix p s ||
  match s with
  | [] => false
  | _ :: s' => is_substring p s'
  end.

(** [s.endswith(p)] *)
Definition endswith (s p : pystr) : bool := is_prefix (rev p) (rev s).

(** [a < b] on strings: lexicographic on code points. *)
Fixpoint pystr_ltb (a b : pystr) : bool :=
  match a, b with
  | _, [] => false
  | [], _ :: _ => true
  | x :: a', y :: b' => (x <? y) || ((x =? y) && pystr_ltb a' b')
  end.

(** [str(n)] for an integer. *)
Definition str_of_Z (n : Z) : pystr :=
  lit (NilEmpty.string_of_int (Z.to_int n)).

Definition str_of_nat (n : nat) : pystr := str_of_Z (Z.of_nat n).

(** ** JSON values as Python sees them *)

#[warnings="-register-all"]
Inductive pyval :=
| PNone
| PBool (b : bool)
| PInt (n : Z)
| PStr (s : pystr)
| PList (l : list pyval)
| PDict (d : list (pystr * pyval)).

(** A [dict] with string keys, in insertion order. *)
Definition pydict := list (pystr * pyval).

Fixpoint dict_lookup (d : pydict) (k : pystr) : option pyval :=
  match d with
  | [] => None
  | (k', v) :: d' => if pystr_eqb k' k then Some v else dict_lookup d' k
  end.

(** [d.get(k, dflt)] *)
Definition dict_get (d : pydict) (k : pystr) (dflt : pyval) : pyval :=
  match dict_lookup d k with Some v => v | None => dflt end.

(** [k in d] *)
Definition dict_has (d : pydict) (k : pystr) : bool :=
  match dict_lookup d k with Some _ => true | None => false end.

(** Exceptions the modelled code can meet. *)
Inductive exn :=
  AttributeError | TypeError | KeyError | IndexError | DecodeError | OverflowError.

Inductive result (A : Type) :=
| Ok (a : A)
| Raise (e : exn).
Arguments Ok {A} a.
Arguments Raise {A} e.

(** [result] is a monad; stdpp's [x ← r; k] sequences two steps and stops
    at the first exception. *)
#[global] Instance result_ret : MRet result := @Ok.
#[global] Instance result_bind : MBind result :=
  fun A B (f : A -> result B) (r : result A) =>
    match r with
    | Ok a => f a
    | Raise e => Raise e
    end.

(** [bool(v)] *)
Definition truthy (v : pyval) : bool :=
  match v with
  | PNone => false
  | PBool b => b
  | PInt n => negb (n =? 0)
  | PStr s => match s with [] => false | _ => true end
  | PList l => match l with [] => false | _ => true end
  | PDict d => match d with [] => false | _ => true end
  end.

(** [v == s] for a string constant [s]. *)
Definition eq_str (v : pyval) (s : pystr) : bool :=
  match v with
  | PStr t => pystr_eqb t s
  | _ => false
  end.

(** [isinstance(v, int)]: a [bool] is an [int] in Python. *)
Definition isinstance_int (v : pyval) : option Z :=
  match v with
  | PInt n => Some n
  | PBool b => Some (if b then 1 else 0)
  | _ => None
  end.

(** [repr] of a string: the quote is chosen as CPython does and the
    backslash, the quote, newline, carriage return and tab are escaped; the
    hexadecimal escapes of non-printable code points are not produced. *)
Definition repr_str (s : pystr) : pystr :=
  let has_single := existsb (Z.eqb 39) s in
  let has_double := existsb (Z.eqb 34) s in
  let q := if has_single && negb has_double then 34 else 39 in
  let esc (c : Z) : pystr :=
    if (c =? 92) || (c =? q) then [92; c]
    else if c =? 10 then [92; 110]
    else if c =? 13 then [92; 114]
    else if c =? 9 then [92; 116]
    else [c] in
  q :: flat_map esc s ++ [q].

Fixpoint join (sep : pystr) (l : list pystr) : pystr :=
  match l with
  | [] => []
  | [s] => s
  | s :: l' => s ++ sep ++ join sep l'
  end.

(** [repr(v)] *)
Fixpoint repr (v : pyval) : pystr :=
  match v with
  | PNone => lit "None"
  | PBool true => lit "True"
  | PBool false => lit "False"
  | PInt n => str_of_Z n
  | PStr s => repr_str s
  | PList l => lit "[" ++ join (lit ", ") (map repr l) ++ lit "]"
  | PDict d =>
      lit "{" ++
      join (lit ", ")
        (map (fun kv => repr_str (fst kv) ++ lit ": " ++ repr (snd kv)) d)
      ++ lit "}"
  end.

(** [str(v)] *)
Definition str (v : pyval) : pystr :=
  match v with
  | PStr s => s
  | _ => repr v
  end.

(** [v.strip()], [v.upper()], [v.lower()]: methods of [str] only. *)
Definition strip_m (v : pyval) : result pystr :=
  match v with PStr s => Ok (strip s) | _ => Raise AttributeError end.

Definition upper_m (v : pyval) : result pystr :=
  match v with PStr s => Ok (upper s) | _ => Raise AttributeError end.

Definition lower_m (v : pyval) : result pystr :=
  match v with PStr s => Ok (lower s) | _ => Raise AttributeError end.

(** [v.get(k, dflt)]: a method of [dict] only. *)
Definition get_m (v : pyval) (k : pystr) (dflt : pyval) : result pyval :=
  match v with PDict d => Ok (dict_get d k dflt) | _ => Raise AttributeError end.

(** Iteration [for x in v]. *)
Definition iter (v : pyval) : result (list pyval) :=
  match v with
  | PList l => Ok l
  | PStr s => Ok (map (fun c => PStr [c]) s)
  | PDict d => Ok (map (fun kv => PStr (fst kv)) d)
  | _ => Raise TypeError
  end.

(** [len(v)] *)
Definition len (v : pyval) : result Z :=
  match v with
  | PList l => Ok (Z.of_nat (length l))
  | PStr s => Ok (Z.of_nat (length s))
  | PDict d => Ok (Z.of_nat (length d))
  | _ => Raise TypeError
  end.

(** [v[i]] for an integer [i] with [0 <= i]. *)
Definition index (v : pyval) (i : Z) : result pyval :=
  match v with
  | PList l =>
      match l !! Z.to_nat i with
      | Some x => Ok x
      | None => Raise IndexError
      end
  | PStr s =>
      match s !! Z.to_nat i with
      | Some c => Ok (PStr [c])
      | None => Raise IndexError
      end
  | PDict _ => Raise KeyError
  | _ => Raise TypeError
  end.

(** ** Scoring engine: [calculate_exam_score] *)

Module Lit.
Definition choice : pystr := lit "choice".
Definition judge : pystr := lit "judge".
Definition unknown : pystr := lit "unknown".
Definition A : pystr := lit "A".
Definition B : pystr := lit "B".
(** "正确" *)
Definition zhengque : pystr := [27491; 30830].
(** "错误" *)
Definition cuowu : pystr := [38169; 35823].
(** "未作答" *)
Definition weizuoda : pystr := [26410; 20316; 31572].
(** "单项选择题" *)
Definition danxiang : pystr := [21333; 39033; 36873; 25321; 39064].
(** "判断题" *)
Definition panduan : pystr := [21028; 26029; 39064].
End Lit.

(** [['A', 'B', 'C', 'D', 'E', 'F']] *)
Definition letters : list pystr :=
  [lit "A"; lit "B"; lit "C"; lit "D"; lit "E"; lit "F"].

(** [s in ['A', 'B', 'C', 'D', 'E', 'F']] *)
Definition is_letter (s : pystr) : bool := existsb (pystr_eqb s) letters.

(** [ord(s)] *)
Definition ord (s : pystr) : result Z :=
  match s with
  | [c] => Ok c
  | _ => Raise TypeError
  end.

(** [acc += v] for an integer accumulator. *)
Definition add_int (acc : Z) (v : pyval) : result Z :=
  match isinstance_int v with
  | Some n => Ok (acc + n)
  | None => Raise TypeError
  end.

(** The [choice] branch, lines 1203-1225. *)
Definition choice_is_correct (question : pydict) (user_answer correct_answer : pyval)
  : result bool :=
  let letter := upper (strip (str user_answer)) in
  match isinstance_int correct_answer with
  | Some k =>
      if truthy user_answer && is_letter letter then
        c ← ord letter;
        let user_index := c - 65 in
        Ok (user_index =? k)
      else Ok false
  | None =>
      if is_letter letter then
        let options := dict_get question (lit "options") (PList []) in
        c ← ord letter;
        let user_index := c - 65 in
        if 0 <=? user_index then
          n ← len options;
          if user_index <? n then
            user_text ← index options user_index;
            t ← strip_m user_text;
            Ok (pystr_eqb t (strip (str correct_answer)))
          else Ok false
        else Ok false
      else Ok (pystr_eqb (strip (str user_answer)) (strip (str correct_answer)))
  end.

(** The [judge] branch, lines 1230-1239. [user_bool] is [None] for an
    answer that is neither A nor B, and [None == correct_answer] is false. *)
Definition judge_is_correct (user_answer correct_answer : pyval) : result bool :=
  match correct_answer with
  | PBool b =>
      u ← upper_m user_answer;
      let user_bool :=
        if pystr_eqb u Lit.A then Some true
        else if pystr_eqb u Lit.B then Some false
        else None in
      Ok (match user_bool with
          | Some ub => Bool.eqb ub b
          | None => false
          end)
  | _ =>
      Ok (pystr_eqb (upper (strip (str user_answer)))
                    (upper (strip (str correct_answer))))
  end.

(** The free-text branch, line 1243. *)
Definition other_is_correct (user_answer : pyval) : result bool :=
  if truthy user_answer then
    s ← strip_m user_answer;
    Ok (truthy (PStr s))
  else Ok false.

(** Display forms, lines 1249-1268. *)
Definition display_correct_answer (qtype correct_answer : pyval) : pyval :=
  if eq_str qtype Lit.choice then
    match isinstance_int correct_answer with
    | Some k =>
        if (0 <=? k) && (k <=? 5) then PStr [65 + k] else PStr (str correct_answer)
    | None => correct_answer
    end
  else if eq_str qtype Lit.judge then
    match correct_answer with
    | PBool b => PStr (if b then Lit.zhengque else Lit.cuowu)
    | _ => correct_answer
    end
  else correct_answer.

Definition display_user_answer (qtype user_answer : pyval) : pyval :=
  if eq_str qtype Lit.choice then user_answer
  else if eq_str qtype Lit.judge then
    if eq_str user_answer Lit.A then PStr Lit.zhengque
    else if eq_str user_answer Lit.B then PStr Lit.cuowu
    else if negb (truthy user_answer) then PStr Lit.weizuoda
    else user_answer
  else user_answer.

Record QuestionResult := {
  qr_question_index : nat;
  qr_question : pyval;
  qr_user_answer : pyval;
  qr_correct_answer : pyval;
  qr_is_correct : bool;
  qr_earned_score : pyval;
  qr_full_score : pyval;
  qr_question_type : pyval
}.

(** [percentage]: [round(total / full * 100, 2)] when [full > 0], the
    integer 0 otherwise; the float is kept as its two arguments. The true
    division of two integers raises [OverflowError] when the correctly
    rounded quotient is beyond the largest double, that is from
    [2^1024 - 2^970] on. *)
Inductive percentage :=
| PctZero
| PctRound2 (total full : Z).

Definition percentage_of (total full : Z) : result percentage :=
  if 0 <? full then
    if (2 ^ 1024 - 2 ^ 970) * full <=? Z.abs total then Raise OverflowError
    else Ok (PctRound2 total full)
  else Ok PctZero.

Record ScoreResult := {
  sr_total_score : Z;
  sr_full_score : Z;
  sr_percentage : percentage;
  sr_question_results : list QuestionResult;
  sr_error : option exn
}.

(** The answers map of a session: question index in string form to the raw
    answer. *)
Abbreviation answers_map := (gmap pystr pyval).

(** One turn of the loop of lines 1193-1279: the score of the question, what
    it adds to [total_score], and its entry in [question_results]. *)
Definition score_question (i : nat) (question : pyval) (answers : answers_map)
  : result (Z * Z * QuestionResult) :=
  question_score ← get_m question (lit "score") (PInt 1);
  fs ← add_int 0 question_score;
  let user_answer := default (PStr []) (answers !! str_of_nat i) in
  correct_answer ← get_m question (lit "answer") (PStr []);
  qtype ← get_m question (lit "type") PNone;
  is_correct ←
    (if eq_str qtype Lit.choice then
       match question with
       | PDict q => choice_is_correct q user_answer correct_answer
       | _ => Raise AttributeError
       end
     else if eq_str qtype Lit.judge then
       judge_is_correct user_answer correct_answer
     else other_is_correct user_answer);
  let earned_score := if is_correct : bool then question_score else PInt 0 in
  ts ← add_int 0 earned_score;
  qtext ← get_m question (lit "question") (PStr []);
  qt ← get_m question (lit "type") (PStr Lit.unknown);
  Ok (fs, ts,
      {| qr_question_index := i;
         qr_question := qtext;
         qr_user_answer := display_user_answer qtype user_answer;
         qr_correct_answer := display_correct_answer qtype correct_answer;
         qr_is_correct := is_correct;
         qr_earned_score := earned_score;
         qr_full_score := question_score;
         qr_question_type := qt |}).

(** The loop, with the accumulators [total_score], [full_score] and
    [question_results] threaded through; [i] is the [enumerate] index. *)
Fixpoint score_loop (i : nat) (questions : list pyval) (answers : answers_map)
    (total full : Z) (results : list QuestionResult)
  : result (Z * Z * list QuestionResult) :=
  match questions with
  | [] => Ok (total, full, results)
  | question :: rest =>
      '(fs, ts, qr) ← score_question i question answers;
      score_loop (S i) rest answers (total + ts) (full + fs) (results ++ [qr])
  end.

(** The body of the [try] block. *)
Definition score_body (exam_data : pyval) (answers : answers_map)
  : result ScoreResult :=
  qs ← get_m exam_data (lit "questions") (PList []);
  questions ← iter qs;
  '(total, full, results) ← score_loop 0 questions answers 0 0 [];
  pct ← percentage_of total full;
  Ok {| sr_total_score := total;
        sr_full_score := full;
        sr_percentage := pct;
        sr_question_results := results;
        sr_error := None |}.

(** [calculate_exam_score(exam_data, answers)]: any exception of the body
    is caught and replaced by the zero result that carries the error. *)
Definition calculate_exam_score (exam_data : pyval) (answers : answers_map)
  : ScoreResult :=
  match score_body exam_data answers with
  | Ok r => r
  | Raise e =>
      {| sr_total_score := 0;
         sr_full_score := 0;
         sr_percentage := PctZero;
         sr_question_results := [];
         sr_error := Some e |}
  end.

(** ** Exam generator: [generate_exam_questions] and [generate_exam] *)

(** What a request handler answers: the payload of a 200, or the status of
    a failure. *)
Inductive response (A : Type) :=
| Success (a : A)
| BadRequest
| NotFound
| ServerError.
Arguments Success {A} a.
Arguments BadRequest {A}.
Arguments NotFound {A}.
Arguments ServerError {A}.

(** [sep.join(v)] *)
Definition join_m (sep : pystr) (v : pyval) : result pystr :=
  items ← iter v;
  strs ← mapM (fun x => match x with PStr s => Ok s | _ => Raise TypeError end) items;
  Ok (join sep strs).

(** The suffix of [s] that starts at the first occurrence of [c]. *)
Fixpoint from_first (c : Z) (s : pystr) : option pystr :=
  match s with
  | [] => None
  | x :: s' => if x =? c then Some s else from_first c s'
  end.

(** [re.search(r'\[.*\]', s, re.DOTALL)]: from the first '[' to the last
    ']' after it. *)
Definition search_array (s : pystr) : option pystr :=
  match from_first 91 s with
  | Some (_ :: rest) =>
      match from_first 93 (rev rest) with
      | Some r => Some (91 :: rev r)
      | None => None
      end
  | _ => None
  end.

(** [l[:count]] *)
Definition slice_to {A} (l : list A) (count : Z) : list A :=
  if 0 <=? count then take (Z.to_nat count) l
  else take (length l - Z.to_nat (- count))%nat l.

(** The validation of one candidate, lines 604-616. *)
Definition valid_candidate (question_type : pystr) (question : pyval) : bool :=
  match question with
  | PDict d =>
      dict_has d (lit "content") && dict_has d (lit "answer")
      && dict_has d (lit "analysis")
      && negb (pystr_eqb question_type Lit.danxiang
               && negb (dict_has d (lit "options")))
  | _ => false
  end.

(** [first_index p 0 l]: the index of the first element that satisfies [p],
    as the [for idx, option in enumerate(options): if ...: break] loops
    find it. *)
Fixpoint first_index {A} (p : A -> result bool) (idx : nat) (l : list A)
  : result (option nat) :=
  match l with
  | [] => Ok None
  | x :: rest =>
      b ← p x;
      if b : bool then Ok (Some idx) else first_index p (S idx) rest
  end.

(** The index of the answer among the options, lines 922-934. *)
Definition answer_index_of (answer_text options : pyval) : result nat :=
  if truthy answer_text && truthy options then
    opts ← iter options;
    exact ← first_index (fun option =>
               a ← strip_m answer_text;
               o ← strip_m option;
               Ok (pystr_eqb a o)) 0%nat opts;
    let answer_index := default 0%nat exact in
    if (answer_index =? 0)%nat && truthy answer_text then
      partial ← first_index (fun option =>
                  a ← strip_m answer_text;
                  o ← strip_m option;
                  if is_substring a o then Ok true
                  else
                    o' ← strip_m option;
                    a' ← strip_m answer_text;
                    Ok (is_substring o' a')) 0%nat opts;
      Ok (default answer_index partial)
    else Ok answer_index
  else Ok 0%nat.

(** 错, 错误, false, 否, 不正确, 不对 *)
Definition false_words : list pystr :=
  [[38169]; [38169; 35823]; lit "false"; [21542]; [19981; 27491; 30830];
   [19981; 23545]].

(** 对, 正确, true, 是, 对的 *)
Definition true_words : list pystr :=
  [[23545]; [27491; 30830]; lit "true"; [26159]; [23545; 30340]].

(** The boolean of a judge answer, lines 958-964. *)
Definition answer_bool_of (answer_text : pyval) : result bool :=
  if truthy answer_text then
    l ← lower_m answer_text;
    let answer_lower := strip l in
    if existsb (fun word => is_substring word answer_lower) false_words
    then Ok false
    else if existsb (fun word => is_substring word answer_lower) true_words
    then Ok true
    else Ok true
  else Ok true.

(** [x in v] for a string [x]. *)
Definition contains_m (v : pyval) (x : pystr) : result bool :=
  match v with
  | PList l => Ok (existsb (fun y => eq_str y x) l)
  | PStr s => Ok (is_substring x s)
  | PDict d => Ok (dict_has d x)
  | _ => Raise TypeError
  end.

(** [v > 0] *)
Definition positive_m (v : pyval) : result bool :=
  match isinstance_int v with
  | Some n => Ok (0 <? n)
  | None => Raise TypeError
  end.

(** A question of a generated exam (the dictionaries of lines 936-944 and
    966-973; a judge question has no [options]). *)
Record Question := {
  q_type : pystr;
  q_question : pyval;
  q_options : option pyval;
  q_answer : pyval;
  q_answer_text : pyval;
  q_analysis : pyval;
  q_score : Z
}.

Record Exam := {
  e_title : pystr;
  e_subject : pystr;
  e_chapters : pyval;
  e_difficulty : pyval;
  e_totalScore : Z;
  e_questions : list Question
}.

(** The JSON form in which an exam leaves the generator and comes back in a
    session. *)
Definition question_to_py (q : Question) : pyval :=
  PDict ([(lit "type", PStr (q_type q)); (lit "question", q_question q)]
         ++ match q_options q with
            | Some o => [(lit "options", o)]
            | None => []
            end
         ++ [(lit "answer", q_answer q); (lit "answer_text", q_answer_text q);
             (lit "analysis", q_analysis q); (lit "score", PInt (q_score q))]).

Definition exam_to_py (e : Exam) : pyval :=
  PDict [(lit "title", PStr (e_title e)); (lit "subject", PStr (e_subject e));
         (lit "chapters", e_chapters e); (lit "difficulty", e_difficulty e);
         (lit "duration", PStr (lit "120" ++ [20998; 38047]));
         (lit "totalScore", PInt (e_totalScore e));
         (lit "questions", PList (map question_to_py (e_questions e)));
         (lit "questionCount", PInt (Z.of_nat (length (e_questions e))))].

Definition choice_question (q : pyval) : result Question :=
  options ← get_m q (lit "options") (PList []);
  answer_text ← get_m q (lit "answer") (PStr []);
  answer_index ← answer_index_of answer_text options;
  content ← get_m q (lit "content") (PStr []);
  analysis ← get_m q (lit "analysis") (PStr []);
  Ok {| q_type := Lit.choice;
        q_question := content;
        q_options := Some options;
        q_answer := PInt (Z.of_nat answer_index);
        q_answer_text := answer_text;
        q_analysis := analysis;
        q_score := 2 |}.

Definition judge_question (q : pyval) : result Question :=
  answer_text ← get_m q (lit "answer") (PStr []);
  answer_bool ← answer_bool_of answer_text;
  content ← get_m q (lit "content") (PStr []);
  analysis ← get_m q (lit "analysis") (PStr []);
  Ok {| q_type := Lit.judge;
        q_question := content;
        q_options := None;
        q_answer := PBool answer_bool;
        q_answer_text := answer_text;
        q_analysis := analysis;
        q_score := 1 |}.

Section Generator.

(** [json.loads]: the parsed value, [Raise DecodeError] for a
    [JSONDecodeError], or another exception. *)
Variable json_loads : pystr -> result pyval.

(** The language model behind [get_ai_response], as a function of what
    the prompt is built from: the question type, the count and the joined
    chapter names. [get_ai_response] itself never raises. *)
Variable ai : pystr -> Z -> pystr -> pyval.

(** Lines 574-591: [None] stands for the early [return []]. *)
Definition parse_response (response : pyval) : result (option pyval) :=
  match response with
  | PStr r =>
      if pystr_eqb r [] || pystr_eqb (strip r) [] then Ok None
      else
        match json_loads r with
        | Ok questions => Ok (Some questions)
        | Raise DecodeError =>
            match search_array r with
            | Some m => questions ← json_loads m; Ok (Some questions)
            | None => Ok None
            end
        | Raise e => Raise e
        end
  | _ => if truthy response then Raise AttributeError else Ok None
  end.

(** The body of the [try] block, lines 571-621. *)
Definition questions_body (response : pyval) (question_type : pystr) (count : Z)
  : result (list pyval) :=
  parsed ← parse_response response;
  match parsed with
  | None => Ok []
  | Some (PList questions) =>
      match questions with
      | [] => Ok []
      | _ => Ok (slice_to (filter (fun q => valid_candidate question_type q) questions) count)
      end
  | Some _ => Ok []
  end.

(** [generate_exam_questions(chapters, question_type, count)]: the chapter
    names are joined before the [try]; every exception of the body is
    turned into the empty list. *)
Definition generate_exam_questions (chapters : pyval) (question_type : pystr)
    (count : Z) : result (list pyval) :=
  chapter_str ← join_m [12289] chapters;
  match questions_body (ai question_type count chapter_str) question_type count with
  | Ok l => Ok l
  | Raise _ => Ok []
  end.

(** One of the two blocks of [generate_exam] (lines 912-946 and 949-975):
    the questions it appends and what it adds to [total_score]. *)
Definition generate_block (data : pydict) (chapters : pyval)
    (type_name count_key : pystr) (weight : Z)
    (mk : pyval -> result Question) : result (list Question * Z) :=
  let selected_types := dict_get data (lit "types") (PList []) in
  let count := dict_get data count_key (PInt 0) in
  selected ← contains_m selected_types type_name;
  wanted ← (if selected : bool then positive_m count else Ok false);
  if wanted : bool then
    generated ← generate_exam_questions chapters type_name
                  (default 0 (isinstance_int count));
    match generated with
    | [] => Ok ([], 0)
    | _ =>
        qs ← mapM mk generated;
        Ok (qs, Z.of_nat (length generated) * weight)
    end
  else Ok ([], 0).

Variable available_subjects : list pystr.

Definition generate_exam_body (data : pydict) : result (response Exam) :=
  let subject := dict_get data (lit "subject") (PStr []) in
  let chapters := dict_get data (lit "chapters") (PList []) in
  let selected_types := dict_get data (lit "types") (PList []) in
  let difficulty := dict_get data (lit "difficulty") (PStr (lit "medium")) in
  match subject with
  | PStr s =>
      if negb (truthy subject) || negb (existsb (pystr_eqb s) available_subjects)
      then Ok BadRequest
      else if negb (truthy chapters) then Ok BadRequest
      else if negb (truthy selected_types) then Ok BadRequest
      else
        '(choice_qs, choice_total) ←
          generate_block data chapters Lit.danxiang (lit "choice_count") 2
            choice_question;
        '(judge_qs, judge_total) ←
          generate_block data chapters Lit.panduan (lit "judge_count") 1
            judge_question;
        let questions := choice_qs ++ judge_qs in
        let total_score := 0 + choice_total + judge_total in
        match questions with
        | [] => Ok BadRequest
        | _ =>
            Ok (Success
                  {| e_title := s ++ [26234; 33021; 35797; 21367];
                     e_subject := s;
                     e_chapters := chapters;
                     e_difficulty := difficulty;
                     e_totalScore := total_score;
                     e_questions := questions |})
        end
  | _ => Ok BadRequest
  end.

(** [generate_exam]: the handler of /api/generate_exam on the request
    body [data]. *)
Definition generate_exam (data : pyval) : response Exam :=
  if negb (truthy data) then BadRequest
  else
    match data with
    | PDict d =>
        match generate_exam_body d with
        | Ok r => r
        | Raise _ => ServerError
        end
    | _ => ServerError
    end.

End Generator.

(** ** Session store and record archive *)

Inductive status := not_started | in_progress | completed.

(** The persisted session unit, with the keys the handlers write. The two
    entry points write different sets of keys, so a key that one of them
    leaves out is optional: reading it when it is absent is the [KeyError]
    of the source. [exam_data] and the raw answers are whatever JSON the
    client sent. *)
Record Session := {
  session_id : pystr;
  student_name : option pyval;
  exam_data : pyval;
  start_time : pystr;
  sess_status : status;
  answers : answers_map;
  auto_save_count : option Z;
  last_save_time : option pystr;
  end_time : option pystr;
  score_result : option ScoreResult
}.

(** A file of the upload folder: a unit that [json.load] reads back, or one
    it fails on. *)
Inductive file :=
| Unreadable
| Stored (s : Session).

(** The upload folder (session units, by file name) and its [exam_records]
    sub-folder (archive units, by file name). *)
Record store := {
  session_files : gmap pystr file;
  record_files : gmap pystr file
}.

(** [f"{session_id}.json"] and [f"{session_id}_result.json"] *)
Definition session_file (session_id : pyval) : pystr :=
  str session_id ++ lit ".json".

Definition record_file (session_id : pyval) : pystr :=
  str session_id ++ lit "_result.json".

Definition write_session (st : store) (name : pystr) (s : Session) : store :=
  {| session_files := <[name := Stored s]> (session_files st);
     record_files := record_files st |}.

Definition write_record (st : store) (name : pystr) (s : Session) : store :=
  {| session_files := session_files st;
     record_files := <[name := Stored s]> (record_files st) |}.

(** [create_exam_session], lines 1000-1030. [stamp] is the formatted clock
    and [hex] the sixteen hexadecimal digits of [os.urandom(8)]. *)
Definition create_exam_session (st : store) (stamp hex now : pystr) (data : pyval)
  : response pystr * store :=
  if negb (truthy data) then (BadRequest, st)
  else
    match data with
    | PDict d =>
        match dict_lookup d (lit "exam") with
        | None => (BadRequest, st)
        | Some exam =>
            let sid := lit "exam_" ++ stamp ++ lit "_" ++ hex in
            let exam_session :=
              {| session_id := sid;
                 student_name := None;
                 exam_data := exam;
                 start_time := now;
                 sess_status := not_started;
                 answers := ∅;
                 auto_save_count := None;
                 last_save_time := None;
                 end_time := None;
                 score_result := None |} in
            (Success sid, write_session st (session_file (PStr sid)) exam_session)
        end
    | PList l =>
        if existsb (fun x => eq_str x (lit "exam")) l then (ServerError, st)
        else (BadRequest, st)
    | PStr s =>
        if is_substring (lit "exam") s then (ServerError, st) else (BadRequest, st)
    | _ => (ServerError, st)
    end.

(** [start_exam], lines 1050-1092. [h] is [hash(str(exam_data))]. *)
Definition start_exam (st : store) (stamp : pystr) (h : Z) (now : pystr) (data : pyval)
  : response (pystr * pyval * pystr) * store :=
  if negb (truthy data) then (BadRequest, st)
  else
    match data with
    | PDict d =>
        let exam := dict_get d (lit "exam") PNone in
        let name := dict_get d (lit "student_name") (PStr [21311; 21517; 29992; 25143]) in
        if negb (truthy exam) then (BadRequest, st)
        else
          let sid := lit "exam_" ++ stamp ++ lit "_" ++ str_of_Z h in
          let exam_session :=
            {| session_id := sid;
               student_name := Some name;
               exam_data := exam;
               start_time := now;
               sess_status := in_progress;
               answers := ∅;
               auto_save_count := Some 0;
               last_save_time := None;
               end_time := None;
               score_result := None |} in
          (Success (sid, exam, now),
           write_session st (session_file (PStr sid)) exam_session)
    | _ => (ServerError, st)
    end.

(** The three updates of lines 1118-1120 on the loaded session; the second
    one raises [KeyError] when the unit has no [auto_save_count]. *)
Definition update_answer (s : Session) (question_index answer : pyval) (now : pystr)
  : result Session :=
  let s1 :=
    {| session_id := session_id s; student_name := student_name s;
       exam_data := exam_data s; start_time := start_time s;
       sess_status := sess_status s;
       answers := <[str question_index := answer]> (answers s);
       auto_save_count := auto_save_count s;
       last_save_time := last_save_time s; end_time := end_time s;
       score_result := score_result s |} in
  n ← match auto_save_count s1 with
      | Some n => Ok n
      | None => Raise KeyError
      end;
  Ok {| session_id := session_id s1; student_name := student_name s1;
        exam_data := exam_data s1; start_time := start_time s1;
        sess_status := sess_status s1;
        answers := answers s1;
        auto_save_count := Some (n + 1);
        last_save_time := Some now; end_time := end_time s1;
        score_result := score_result s1 |}.

Definition is_none (v : pyval) : bool :=
  match v with PNone => true | _ => false end.

(** [save_answer], lines 1095-1130; a success carries [save_count]. *)
Definition save_answer (st : store) (now : pystr) (data : pyval)
  : response Z * store :=
  if negb (truthy data) then (BadRequest, st)
  else
    match data with
    | PDict d =>
        let sid := dict_get d (lit "session_id") PNone in
        let question_index := dict_get d (lit "question_index") PNone in
        let answer := dict_get d (lit "answer") PNone in
        if negb (truthy sid && negb (is_none question_index) && negb (is_none answer))
        then (BadRequest, st)
        else
          match session_files st !! session_file sid with
          | None => (NotFound, st)
          | Some Unreadable => (ServerError, st)
          | Some (Stored exam_session) =>
              match update_answer exam_session question_index answer now with
              | Ok s' =>
                  (Success (default 0 (auto_save_count s')),
                   write_session st (session_file sid) s')
              | Raise _ => (ServerError, st)
              end
          end
    | _ => (ServerError, st)
    end.

(** [submit_exam], lines 1133-1183: no test of the session's status. *)
Definition submit_exam (st : store) (now : pystr) (data : pyval)
  : response (ScoreResult * Session) * store :=
  if negb (truthy data) then (BadRequest, st)
  else
    match data with
    | PDict d =>
        let sid := dict_get d (lit "session_id") PNone in
        if negb (truthy sid) then (BadRequest, st)
        else
          match session_files st !! session_file sid with
          | None => (NotFound, st)
          | Some Unreadable => (ServerError, st)
          | Some (Stored exam_session) =>
              let result := calculate_exam_score (exam_data exam_session)
                              (answers exam_session) in
              let s' :=
                {| session_id := session_id exam_session;
                   student_name := student_name exam_session;
                   exam_data := exam_data exam_session;
                   start_time := start_time exam_session;
                   sess_status := completed;
                   answers := answers exam_session;
                   auto_save_count := auto_save_count exam_session;
                   last_save_time := last_save_time exam_session;
                   end_time := Some now;
                   score_result := Some result |} in
              (Success (result, s'),
               write_record (write_session st (session_file sid) s')
                 (record_file sid) s')
          end
    | _ => (ServerError, st)
    end.

(** The projection of a record that [get_exam_records] lists. *)
Record Summary := {
  sm_session_id : pystr;
  sm_student_name : pyval;
  sm_exam_title : pyval;
  sm_subject : pyval;
  sm_start_time : pystr;
  sm_end_time : pystr;
  sm_status : status;
  sm_total_score : Z;
  sm_full_score : Z;
  sm_percentage : percentage
}.

(** Lines 1310-1327 for one file; an exception means the file is skipped. *)
Definition summarize (f : file) : result Summary :=
  match f with
  | Unreadable => Raise DecodeError
  | Stored record =>
      title ← get_m (exam_data record) (lit "title") (PStr [26410; 30693; 35797; 21367]);
      subject ← get_m (exam_data record) (lit "subject") (PStr [26410; 30693; 23398; 31185]);
      Ok {| sm_session_id := session_id record;
            sm_student_name := default (PStr [21311; 21517]) (student_name record);
            sm_exam_title := title;
            sm_subject := subject;
            sm_start_time := start_time record;
            sm_end_time := default [] (end_time record);
            sm_status := sess_status record;
            sm_total_score :=
              match score_result record with
              | Some r => sr_total_score r
              | None => 0
              end;
            sm_full_score :=
              match score_result record with
              | Some r => sr_full_score r
              | None => 0
              end;
            sm_percentage :=
              match score_result record with
              | Some r => sr_percentage r
              | None => PctZero
              end |}
  end.

(** The loop of lines 1307-1331 over the names [os.listdir] returns. *)
Definition read_records (st : store) (names : list pystr) : list Summary :=
  omap (fun filename =>
          if endswith filename (lit "_result.json") then
            match record_files st !! filename with
            | Some f =>
                match summarize f with
                | Ok summary => Some summary
                | Raise _ => None
                end
            | None => None
            end
          else None) names.

(** [records.sort(key=lambda x: x.get('end_time', ''), reverse=True)]: a
    stable sort, larger keys first. *)
Fixpoint insert_desc (x : Summary) (l : list Summary) : list Summary :=
  match l with
  | [] => [x]
  | y :: l' =>
      if pystr_ltb (sm_end_time x) (sm_end_time y) then y :: insert_desc x l'
      else x :: l
  end.

Definition sort_desc (l : list Summary) : list Summary := foldr insert_desc [] l.

(** [get_exam_records], lines 1299-1340; [names] is what [os.listdir] gives
    for the archive folder, in the order it gives it. *)
Definition get_exam_records (st : store) (names : list pystr) : list Summary :=
  sort_desc (read_records st names).

(** ** Reading back: [get_saved_answers] and [get_exam_record_detail] *)

(** [get_saved_answers(session_id)], lines 1034-1046; the id is the segment
    of the URL. *)
Definition get_saved_answers (st : store) (sid : pystr) : response answers_map :=
  match session_files st !! session_file (PStr sid) with
  | None => NotFound
  | Some Unreadable => ServerError
  | Some (Stored exam_session) => Success (answers exam_session)
  end.

(** [get_exam_record_detail(session_id)], lines 1343-1359. *)
Definition get_exam_record_detail (st : store) (sid : pystr) : response Session :=
  match record_files st !! record_file (PStr sid) with
  | None => NotFound
  | Some Unreadable => ServerError
  | Some (Stored record) => Success record
  end.

(** ** Uploads: [allowed_file] *)

(** [s.rsplit(sep, 1)] for a separator of one character: the text before
    the last [sep] and the text after it, or [s] alone. *)
Fixpoint rsplit1 (sep : Z) (s : pystr) : list pystr :=
  match s with
  | [] => [[]]
  | x :: s' =>
      match rsplit1 sep s' with
      | [a; b] => [x :: a; b]
      | _ => if x =? sep then [[]; s'] else [x :: s']
      end
  end.

(** [ALLOWED_EXTENSIONS = {'txt'}] *)
Definition ALLOWED_EXTENSIONS : list pystr := [lit "txt"].

(** [allowed_file(filename)], lines 30-32. The ASCII [lower] is exact here:
    no code point outside ASCII has a lower-case form with a letter of
    "txt". *)
Definition allowed_file (filename : pystr) : result bool :=
  if is_substring (lit ".") filename then
    match rsplit1 46 filename !! 1%nat with
    | Some ext => Ok (existsb (pystr_eqb (lower ext)) ALLOWED_EXTENSIONS)
    | None => Raise IndexError
    end
  else Ok false.

(** ** Explanation cache on disk: [get_cache_path], [load_from_cache],
    [save_to_cache] *)

(** [s.replace(a, b)] for two single characters. *)
Definition replace_char (a b : Z) (s : pystr) : pystr :=
  map (fun c => if c =? a then b else c) s.

(** [safe_name], line 410: the three parts formatted and joined by '_',
    then '/' and the backslash replaced by '_'. *)
Definition safe_name (chapter concept concept_type : pyval) : pystr :=
  replace_char 92 95
    (replace_char 47 95
       (str chapter ++ lit "_" ++ str concept ++ lit "_" ++ str concept_type)).

(** [get_cache_path], lines 405-411, with the separator of POSIX. *)
Definition get_cache_path (chapter concept concept_type : pyval) : pystr :=
  lit "cache/explanations" ++ lit "/"
  ++ (safe_name chapter concept concept_type ++ lit ".json").

(** A file of the cache folder: one [json.load] fails on, or the value it
    reads. *)
Inductive cache_file :=
| Corrupt
| Json (v : pyval).

Abbreviation cache_dir := (gmap pystr cache_file).



(** ** In-memory cache: [MemoryCache] *)

(** The class of lines 59-90, one call at a time (the lock serialises the
    calls). *)
Module MemoryCache.
Section Clock.

(** Readings of [time.time()], and the test [now - stamp < 300] of line 70
    on two of them. *)
Variable T : Type.
Variable fresh : T -> T -> bool.

(** The two dictionaries of the instance. *)
Record t := {
  _cache : gmap pystr pyval;
  _timestamps : gmap pystr T
}.

(** [__init__] *)
Definition init : t := {| _cache := ∅; _timestamps := ∅ |}.

(** [get(key, default)] at clock [now], lines 65-75: the value returned and
    the instance afterwards. *)
Definition get (mc : t) (now : T) (key : pystr) (default : pyval)
  : result pyval * t :=
  match _cache mc !! key with
  | Some value =>
      match _timestamps mc !! key with
      | Some stamp =>
          if fresh now stamp then (Ok value, mc)
          else (Ok default,
                {| _cache := base.delete key (_cache mc);
                   _timestamps := base.delete key (_timestamps mc) |})
      | None => (Raise KeyError, mc)
      end
  | None => (Ok default, mc)
  end.

(** [set(key, value, ttl=300)] at clock [now], lines 77-80: [ttl] is not
    used. *)
Definition set (mc : t) (now : T) (key : pystr) (value : pyval) (ttl : Z) : t :=
  {| _cache := <[key := value]> (_cache mc);
     _timestamps := <[key := now]> (_timestamps mc) |}.

(** [delete(key)], lines 82-85 *)
Definition delete (mc : t) (key : pystr) : t :=
  {| _cache := base.delete key (_cache mc);
     _timestamps := base.delete key (_timestamps mc) |}.

(** [clear()], lines 87-90 *)
Definition clear (mc : t) : t := {| _cache := ∅; _timestamps := ∅ |}.

(** The calls a client can make. *)
Inductive call :=
| CGet (now : T) (key : pystr) (default : pyval)
| CSet (now : T) (key : pystr) (value : pyval) (ttl : Z)
| CDelete (key : pystr)
| CClear.

(** The instance after a call. *)
Definition step (mc : t) (c : call) : t :=
  match c with
  | CGet now key default => (get mc now key default).2
  | CSet now key value ttl => set mc now key value ttl
  | CDelete key => delete mc key
  | CClear => clear mc
  end.

(** Every cached key has a time stamp and conversely. *)
Definition coherent (mc : t) : Prop :=
  forall key, is_Some (_cache mc !! key) <-> is_Some (_timestamps mc !! key).

End Clock.

Arguments _cache {T} _.
Arguments _timestamps {T} _.
Arguments init {T}.
Arguments get {T} fresh mc now key default.
Arguments set {T} mc now key value ttl.
Arguments delete {T} mc key.
Arguments clear {T} mc.
Arguments CGet {T} now key default.
Arguments CSet {T} now key value ttl.
Arguments CDelete {T} key.
Arguments CClear {T}.
Arguments step {T} fresh mc c.
Arguments coherent {T} mc.

End MemoryCache.

(** ** Vocabulary of the properties *)

(** The zero-based alphabet offset of a letter A to F, in either case. *)
Definition letter_offset (c : Z) : option Z :=
  if (65 <=? c) && (c <=? 70) then Some (c - 65)
  else if (97 <=? c) && (c <=? 102) then Some (c - 97)
  else None.

(** The option index a raw answer stands for, when it is a single letter
    (white space around it aside). *)
Definition letter_index (s : pystr) : option Z :=
  match strip s with
  | [c] => letter_offset c
  | _ => None
  end.

(** A question in the current format: a dictionary with a numeric score (or
    none), that is a choice question with an integer answer or a judge
    question with a boolean answer. *)
Definition current_format (q : pyval) : Prop :=
  exists d, q = PDict d /\
    isinstance_int (dict_get d (lit "score") (PInt 1)) <> None /\
    ((dict_lookup d (lit "type") = Some (PStr Lit.choice) /\
      exists k, dict_lookup d (lit "answer") = Some (PInt k)) \/
     (dict_lookup d (lit "type") = Some (PStr Lit.judge) /\
      exists b, dict_lookup d (lit "answer") = Some (PBool b))).

(** Every raw answer of the map is a string. *)
Definition string_answers (answers : answers_map) : Prop :=
  forall k v, answers !! k = Some v -> exists s, v = PStr s.

(** [sum(q.score for q in questions)] *)
Definition sum_scores (qs : list Question) : Z :=
  foldr (fun q acc => q_score q + acc) 0 qs.

(** A question of type [ty] that weighs [w] points. *)
Definition weighted (ty : pystr) (w : Z) (q : Question) : Prop :=
  q_type q = ty /\ q_score q = w.

(** The response parses to [v]: directly, or, after a [JSONDecodeError], from
    its first '[' to its last ']'. *)
Definition parses_to (json_loads : pystr -> result pyval) (r : pystr) (v : pyval)
  : Prop :=
  json_loads r = Ok v \/
  (json_loads r = Raise DecodeError /\
   exists m, search_array r = Some m /\ json_loads m = Ok v).

(** The response cannot be parsed, not even its bracketed part. *)
Definition unparsable (json_loads : pystr -> result pyval) (r : pystr) : Prop :=
  exists e, json_loads r = Raise e /\
    (search_array r = None \/
     exists m e', search_array r = Some m /\ json_loads m = Raise e').

(** The request bodies of [save_answer] and [submit_exam]. *)
Definition save_request (sid : pystr) (question_index answer : pyval) : pyval :=
  PDict [(lit "session_id", PStr sid); (lit "question_index", question_index);
         (lit "answer", answer)].

Definition submit_request (sid : pystr) : pyval :=
  PDict [(lit "session_id", PStr sid)].

(** A run of [save_answer] calls on one session: each call is given by its
    clock, its question index and its answer. *)
Fixpoint run_saves (st : store) (sid : pystr)
    (calls : list (pystr * pyval * pyval)) : list (response Z) * store :=
  match calls with
  | [] => ([], st)
  | (now, question_index, answer) :: rest =>
      let '(r, st1) := save_answer st now (save_request sid question_index answer) in
      let '(rs, st2) := run_saves st1 sid rest in
      (r :: rs, st2)
  end.

(** A call with an integer question index, as [run_saves] takes it. *)
Definition as_request (c : pystr * Z * pyval) : pystr * pyval * pyval :=
  (c.1.1, PInt c.1.2, c.2).

(** The key under which a call stores its answer, and the answers map
    after a run of calls. *)
Definition key_of (c : pystr * Z * pyval) : pystr := str_of_Z c.1.2.

Definition ins_all (m : answers_map) (calls : list (pystr * Z * pyval))
  : answers_map :=
  foldl (fun m c => <[key_of c := c.2]> m) m calls.

(** What [save_answer] answers on a session without [auto_save_count]. *)
Definition refusal (c : pystr * pyval * pyval) : response Z :=
  if is_none c.1.2 || is_none c.2 then BadRequest else ServerError.

(** A candidate as the generator accepts it: a mapping with [content],
    [answer] and [analysis], and with [options] when choice questions were
    asked for. *)
Definition is_candidate (question_type : pystr) (q : pyval) : Prop :=
  exists d, q = PDict d /\
    dict_has d (lit "content") = true /\
    dict_has d (lit "answer") = true /\
    dict_has d (lit "analysis") = true /\
    (question_type = Lit.danxiang -> dict_has d (lit "options") = true).

(** [a] is not listed after [b] by mistake: its [end_time] is not the
    smaller one. *)
Definition not_older (a b : Summary) : Prop :=
  pystr_ltb (sm_end_time a) (sm_end_time b) = false.

(** [sm] is the summary of an archive unit that can be read. *)
Definition archived (st : store) (names : list pystr) (sm : Summary) : Prop :=
  exists name f, name ∈ names /\ endswith name (lit "_result.json") = true /\
                 record_files st !! name = Some f /\ summarize f = Ok sm.

(** The unit behind a name of the archive is not a corrupt one. *)
Definition readable (st : store) (name : pystr) : bool :=
  match record_files st !! name with
  | Some Unreadable => false
  | _ => true
  end.

(** *** Vocabulary of the further properties *)

(** The integer a score field holds ([True] counts 1), 0 for anything else. *)
Definition int_of (v : pyval) : Z := default 0 (isinstance_int v).

(** The sum of a list of score fields. *)
Definition sum_int (l : list pyval) : Z := foldr (fun v acc => int_of v + acc) 0 l.

(** The entry of one question is consistent: it earns its full score when
    correct and 0 otherwise, and the full score is a number. *)
Definition consistent_entry (qr : QuestionResult) : Prop :=
  qr_earned_score qr = (if qr_is_correct qr then qr_full_score qr else PInt 0) /\
  isinstance_int (qr_full_score qr) <> None.

(** The list of questions the scoring loop walks: [exam_data.get('questions', [])]
    as [enumerate] iterates it. *)
Definition exam_questions (exam_data : pyval) : result (list pyval) :=
  qs ← get_m exam_data (lit "questions") (PList []); iter qs.

(** A question as the generator builds it: a choice question of 2 points
    whose answer is an index, or a judge question of 1 point whose answer is
    a boolean. *)
Definition generated (q : Question) : Prop :=
  (q_type q = Lit.choice /\ q_score q = 2 /\ exists k : nat, q_answer q = PInt (Z.of_nat k)) \/
  (q_type q = Lit.judge /\ q_score q = 1 /\ exists b : bool, q_answer q = PBool b).

(** A question the loop cannot score: not a dictionary, or a dictionary
    whose [score] is not a number. *)
Definition malformed (q : pyval) : Prop :=
  (forall d, q <> PDict d) \/
  (exists d, q = PDict d /\ isinstance_int (dict_get d (lit "score") (PInt 1)) = None).

(** The zero result of the [except] branch, whatever the error. *)
Definition voided (r : ScoreResult) : Prop :=
  sr_error r <> None /\ sr_total_score r = 0 /\ sr_full_score r = 0 /\
  sr_percentage r = PctZero /\ sr_question_results r = [].

(** ** Sample data: the end-to-end scenario of the specification *)

Module Sample.

Definition text (s : string) : pyval := PStr (lit s).

Definition options4 : pyval := PList [text "w"; text "x"; text "y"; text "z"].

(** What the language model returns, once parsed. *)
Definition cand_c1 : pyval :=
  PDict [(lit "content", text "q1"); (lit "options", options4);
         (lit "answer", text "w"); (lit "analysis", text "a1")].

Definition cand_c2 : pyval :=
  PDict [(lit "content", text "q2"); (lit "options", options4);
         (lit "answer", text "y"); (lit "analysis", text "a2")].

Definition cand_j : pyval :=
  PDict [(lit "content", text "q3"); (lit "answer", PStr Lit.zhengque);
         (lit "analysis", text "a3")].

(** A parser that knows two documents. *)
Definition json_loads (s : pystr) : result pyval :=
  if pystr_eqb s (lit "[choice]")
  then Ok (PList [cand_c1; PInt 7; cand_c2; cand_c1])
  else if pystr_eqb s (lit "[judge]") then Ok (PList [cand_j])
  else Raise DecodeError.

(** A model that wraps its choice questions in prose. *)
Definition ai (question_type : pystr) (count : Z) (chapter_str : pystr) : pyval :=
  if pystr_eqb question_type Lit.danxiang then text "Here: [choice] done"
  else text "[judge]".

Definition subjects : list pystr := [lit "db"].

Definition chapters : pyval := PList [text "ch1"; text "ch2"].

Definition request : pyval :=
  PDict [(lit "subject", text "db"); (lit "chapters", chapters);
         (lit "types", PList [PStr Lit.danxiang; PStr Lit.panduan]);
         (lit "choice_count", PInt 2); (lit "judge_count", PInt 1)].

Definition q1 : Question :=
  {| q_type := Lit.choice; q_question := text "q1"; q_options := Some options4;
     q_answer := PInt 0; q_answer_text := text "w"; q_analysis := text "a1";
     q_score := 2 |}.

Definition q2 : Question :=
  {| q_type := Lit.choice; q_question := text "q2"; q_options := Some options4;
     q_answer := PInt 2; q_answer_text := text "y"; q_analysis := text "a2";
     q_score := 2 |}.

Definition q3 : Question :=
  {| q_type := Lit.judge; q_question := text "q3"; q_options := None;
     q_answer := PBool true; q_answer_text := PStr Lit.zhengque;
     q_analysis := text "a3"; q_score := 1 |}.

Definition exam : Exam :=
  {| e_title := lit "db" ++ [26234; 33021; 35797; 21367];
     e_subject := lit "db";
     e_chapters := chapters;
     e_difficulty := text "medium";
     e_totalScore := 5;
     e_questions := [q1; q2; q3] |}.

Definition q1_dict : pydict :=
  match question_to_py q1 with PDict d => d | _ => [] end.
Definition q2_dict : pydict :=
  match question_to_py q2 with PDict d => d | _ => [] end.
Definition q3_dict : pydict :=
  match question_to_py q3 with PDict d => d | _ => [] end.

(** The legacy question of the specification: the answer is the text
    "北京", the options are "北京" and "上海". *)
Definition beijing : pystr := [21271; 20140].
Definition shanghai : pystr := [19978; 28023].
Definition legacy_dict : pydict :=
  [(lit "type", PStr Lit.choice); (lit "question", text "capital");
   (lit "options", PList [PStr beijing; PStr shanghai]);
   (lit "answer", PStr beijing); (lit "score", PInt 2)].

(** Answers A, B, A: right, wrong, right. *)
Definition answers_aba : answers_map :=
  <[lit "0" := text "A"]> (<[lit "1" := text "B"]> (<[lit "2" := text "A"]> ∅)).

(** The same, but the judge question is answered with the number 1. *)
Definition answers_number : answers_map :=
  <[lit "0" := text "A"]> (<[lit "1" := text "B"]> (<[lit "2" := PInt 1]> ∅)).

Definition st0 : store := {| session_files := ∅; record_files := ∅ |}.

Definition stamp : pystr := lit "20240501_100000".
Definition t0 : pystr := lit "2024-05-01T10:00:00".
Definition t1 : pystr := lit "2024-05-01T10:05:00".
Definition t2 : pystr := lit "2024-05-01T10:06:00".
Definition t3 : pystr := lit "2024-05-01T10:07:00".
Definition t4 : pystr := lit "2024-05-01T11:00:00".
Definition t5 : pystr := lit "2024-05-01T11:30:00".

Definition start_request : pyval :=
  PDict [(lit "exam", exam_to_py exam); (lit "student_name", text "stu")].

(** The session [start_exam] opens. *)
Definition sid : pystr := lit "exam_20240501_100000_42".
Definition st1 : store := (start_exam st0 stamp 42 t0 start_request).2.

Definition calls : list (pystr * Z * pyval) :=
  [(t1, 0, text "A"); (t2, 1, text "B"); (t3, 2, text "A")].

(** The store after the three saves and a first submission. *)
Definition st2 : store := (run_saves st1 sid (as_request <$> calls)).2.
Definition st3 : store := (submit_exam st2 t4 (submit_request sid)).2.

Definition submitted : Session :=
  match session_files st3 !! session_file (PStr sid) with
  | Some (Stored s) => s
  | _ =>
      {| session_id := []; student_name := None; exam_data := PNone;
         start_time := []; sess_status := not_started; answers := ∅;
         auto_save_count := None; last_save_time := None; end_time := None;
         score_result := None |}
  end.

(** The session [create_exam_session] opens. *)
Definition hex : pystr := lit "00112233445566ff".
Definition create_request : pyval := PDict [(lit "exam", exam_to_py exam)].
Definition sid' : pystr := lit "exam_20240501_100000_00112233445566ff".
Definition st1' : store :=
  (create_exam_session st0 stamp hex t0 create_request).2.

(** An archive with the submitted session, a unit without [end_time] and
    a corrupt unit. *)
Definition unfinished : Session :=
  {| session_id := lit "exam_a"; student_name := Some (text "ann");
     exam_data := exam_to_py exam; start_time := t0;
     sess_status := in_progress; answers := ∅; auto_save_count := Some 0;
     last_save_time := None; end_time := None; score_result := None |}.

Definition archive : store :=
  {| session_files := ∅;
     record_files :=
       <[lit "exam_a_result.json" := Stored unfinished]>
         (<[lit "exam_c_result.json" := Unreadable]>
            (record_files st3)) |}.

Definition names : list pystr :=
  [lit "exam_a_result.json"; lit "exam_c_result.json";
   record_file (PStr sid)].

End Sample.

(** * Properties *)

(** ** The result monad *)

Lemma bind_Ok {A B} (a : A) (f : A -> result B) : (Ok a ≫= f) = f a.
Proof. reflexivity. Qed.

Lemma bind_inv {A B} (r : result A) (f : A -> result B) (b : B) :
  (r ≫= f) = Ok b -> exists a, r = Ok a /\ f a = Ok b.
Proof. destruct r as [a|e]; [eauto | discriminate]. Qed.

Ltac run := rewrite ?bind_Ok.
Ltac run_in H := rewrite ?bind_Ok in H.

Ltac inv_bind H :=
  let a := fresh "x" in
  let Ha := fresh "Hx" in
  apply bind_inv in H; destruct H as (a & Ha & H).

Lemma mapM_result_inv {A B} (f : A -> result B) (l : list A) (k : list B) :
  mapM f l = Ok k -> Forall2 (fun x y => f x = Ok y) l k.
Proof.
  revert k. induction l as [|x l IH]; intros k H; cbn in H.
  - injection H as <-. constructor.
  - inv_bind H. inv_bind H. injection H as <-. constructor; auto.
Qed.

(** ** Strings, letters and dictionaries *)

Lemma pystr_eqb_single c k : pystr_eqb [c] [k] = (c =? k).
Proof.
  unfold pystr_eqb. case_bool_decide; destruct (Z.eqb_spec c k); congruence.
Qed.

Lemma is_letter_single c : is_letter [c] = (65 <=? c) && (c <=? 70).
Proof.
  unfold is_letter, letters. cbn [existsb].
  change (lit "A") with [65]. change (lit "B") with [66].
  change (lit "C") with [67]. change (lit "D") with [68].
  change (lit "E") with [69]. change (lit "F") with [70].
  rewrite !pystr_eqb_single. lia.
Qed.

Lemma is_letter_long a b l : is_letter (a :: b :: l) = false.
Proof.
  unfold is_letter, letters, pystr_eqb. cbn.
  repeat case_bool_decide; simplify_eq; reflexivity.
Qed.

(** A raw answer that stands for the option index [j] passes the letter
    test of the source, and [ord] gives the [j]-th letter. *)
Lemma letter_index_Some s j :
  letter_index s = Some j ->
  is_letter (upper (strip s)) = true /\ ord (upper (strip s)) = Ok (65 + j)
  /\ 0 <= j <= 5 /\ s <> [].
Proof.
  unfold letter_index, letter_offset.
  destruct (strip s) as [|c [|c' r]] eqn:E; try discriminate.
  intros H. cbn [upper map ord]. rewrite is_letter_single. unfold upper_char.
  assert (s <> []) by (intros ->; discriminate).
  destruct ((65 <=? c) && (c <=? 70)) eqn:E1.
  - injection H as <-. replace ((97 <=? c) && (c <=? 122)) with false by lia.
    repeat split; try lia; try assumption. f_equal; lia.
  - destruct ((97 <=? c) && (c <=? 102)) eqn:E2; try discriminate.
    injection H as <-. replace ((97 <=? c) && (c <=? 122)) with true by lia.
    repeat split; try lia; try assumption. f_equal; lia.
Qed.

(** Every other raw answer fails the letter test. *)
Lemma letter_index_None s :
  letter_index s = None -> is_letter (upper (strip s)) = false.
Proof.
  unfold letter_index, letter_offset.
  destruct (strip s) as [|c [|c' r]] eqn:E; try reflexivity.
  - cbn [upper map]. rewrite is_letter_single. unfold upper_char.
    destruct ((65 <=? c) && (c <=? 70)) eqn:E1; try discriminate.
    destruct ((97 <=? c) && (c <=? 102)) eqn:E2; try discriminate.
    intros _. destruct ((97 <=? c) && (c <=? 122)) eqn:E3; lia.
  - intros _. apply is_letter_long.
Qed.

Lemma dict_get_lookup d k v dflt : dict_lookup d k = Some v -> dict_get d k dflt = v.
Proof. unfold dict_get. now intros ->. Qed.

Lemma add_int_Some a v n : isinstance_int v = Some n -> add_int a v = Ok (a + n).
Proof. unfold add_int. now intros ->. Qed.

Lemma add_int_zero a : add_int a (PInt 0) = Ok a.
Proof. unfold add_int. cbn. f_equal. lia. Qed.

Lemma truthy_str_nonempty s : s <> [] -> truthy (PStr s) = true.
Proof. destruct s; [congruence | reflexivity]. Qed.

Lemma is_none_false v : v <> PNone -> is_none v = false.
Proof. destruct v; [congruence | reflexivity ..]. Qed.

(** ** Scoring one question *)

(** Once the branch of the question's type has decided [is_correct], the
    turn of the loop cannot fail any more: it awards the question's score
    or nothing. *)
Lemma score_question_decided (q : pydict) (i : nat) (answers : answers_map)
    (sc : Z) (b : bool) :
  isinstance_int (dict_get q (lit "score") (PInt 1)) = Some sc ->
  (let user_answer := default (PStr []) (answers !! str_of_nat i) in
   let correct_answer := dict_get q (lit "answer") (PStr []) in
   let qtype := dict_get q (lit "type") PNone in
   (if eq_str qtype Lit.choice then choice_is_correct q user_answer correct_answer
    else if eq_str qtype Lit.judge then judge_is_correct user_answer correct_answer
    else other_is_correct user_answer) = Ok b) ->
  exists qr,
    score_question i (PDict q) answers = Ok (sc, (if b then sc else 0), qr) /\
    qr_is_correct qr = b /\
    qr_user_answer qr =
      display_user_answer (dict_get q (lit "type") PNone)
        (default (PStr []) (answers !! str_of_nat i)).
Proof.
  intros Hs Hb. cbv zeta in Hb. unfold score_question. cbn [get_m]. run.
  rewrite (add_int_Some _ _ _ Hs). run. rewrite Hb. run. destruct b.
  - rewrite (add_int_Some _ _ _ Hs). run. eexists. repeat split.
  - rewrite add_int_zero. run. eexists. repeat split.
Qed.

Lemma is_letter_ord s : is_letter s = true -> exists c, ord s = Ok c.
Proof.
  destruct s as [|c [|c' s]]; [discriminate | now exists c |].
  now rewrite is_letter_long.
Qed.

(** On string answers a question in the current format is always scored, and
    a missing answer is incorrect and earns nothing. *)
Lemma score_question_current q i answers :
  current_format q -> string_answers answers ->
  exists fs ts qr,
    score_question i q answers = Ok (fs, ts, qr) /\
    (answers !! str_of_nat i = None -> qr_is_correct qr = false /\ ts = 0).
Proof.
  intros (d & -> & Hs & Hq) Hstr.
  destruct (isinstance_int (dict_get d (lit "score") (PInt 1))) as [sc|] eqn:Hsc;
    [clear Hs | congruence].
  assert (Hua : exists s, default (PStr []) (answers !! str_of_nat i) = PStr s /\
                          (answers !! str_of_nat i = None -> s = [])).
  { destruct (answers !! str_of_nat i) as [v|] eqn:Hv.
    - destruct (Hstr _ _ Hv) as [s ->]. exists s. split; [reflexivity | discriminate].
    - exists []. split; reflexivity. }
  destruct Hua as (s & Hua & Hmiss).
  assert (Hb : exists b,
            (let user_answer := default (PStr []) (answers !! str_of_nat i) in
             let correct_answer := dict_get d (lit "answer") (PStr []) in
             let qtype := dict_get d (lit "type") PNone in
             (if eq_str qtype Lit.choice
              then choice_is_correct d user_answer correct_answer
              else if eq_str qtype Lit.judge
                   then judge_is_correct user_answer correct_answer
                   else other_is_correct user_answer) = Ok b) /\
            (s = [] -> b = false)).
  { cbv zeta. rewrite Hua.
    destruct Hq as [(Ht & k & Ha) | (Ht & b & Ha)];
      rewrite (dict_get_lookup _ _ _ _ Ha), (dict_get_lookup _ _ _ _ Ht); cbn [eq_str].
    - change (pystr_eqb Lit.choice Lit.choice) with true. cbv iota.
      unfold choice_is_correct. cbv zeta. cbn [isinstance_int str].
      destruct (truthy (PStr s) && is_letter (upper (strip s))) eqn:E.
      + apply andb_prop in E as [Et El]. destruct (is_letter_ord _ El) as [c ->].
        run. eexists. split; [reflexivity|]. intros ->. discriminate.
      + now exists false.
    - change (pystr_eqb Lit.judge Lit.choice) with false.
      change (pystr_eqb Lit.judge Lit.judge) with true. cbv iota.
      unfold judge_is_correct. cbn [upper_m]. run. eexists. split; [reflexivity|].
      now intros ->. }
  destruct Hb as (b & Hb & Hbm).
  destruct (score_question_decided d i answers sc b Hsc Hb) as (qr & Hqr & Hc & _).
  exists sc, (if b then sc else 0), qr. split; [exact Hqr|].
  intros Hn. rewrite Hc, (Hbm (Hmiss Hn)). now split.
Qed.

(** So the loop never fails on such an exam, and yields one result per
    question. *)
Lemma score_loop_current questions answers : forall i total full results,
  Forall current_format questions -> string_answers answers ->
  exists total' full' results',
    score_loop i questions answers total full results = Ok (total', full', results') /\
    length results' = (length results + length questions)%nat.
Proof.
  induction questions as [|q questions IH]; intros i total full results Hq Hs.
  - exists total, full, results. cbn. split; [reflexivity | lia].
  - apply Forall_cons in Hq as [Hq Hqs].
    destruct (score_question_current q i answers Hq Hs) as (fs & ts & qr & Hsq & _).
    cbn [score_loop]. rewrite Hsq. run.
    destruct (IH (S i) (total + ts) (full + fs) (results ++ [qr]) Hqs Hs)
      as (t' & f' & r' & Hl & Hlen).
    exists t', f', r'. split; [exact Hl|]. rewrite Hlen, length_app. cbn. lia.
Qed.

(** C1. The scoring engine on a per-question answer that is not a string.
    In the sample exam the first question, taken alone, is answered
    correctly and earns its 2 points; with string answers the exam scores
    3 of 5. When the answer to the judge question is the number 1,
    [user_answer.upper()] raises, the function-level handler takes over and
    the whole result is the zero result with an error: no question keeps
    its score and [question_results] is empty. *)
Theorem score_aborts_on_number_answer :
  (exists qr,
     score_question 0 (question_to_py Sample.q1) Sample.answers_number
       = Ok (2, 2, qr) /\ qr_is_correct qr = true) /\
  sr_total_score (calculate_exam_score (exam_to_py Sample.exam) Sample.answers_aba) = 3 /\
  sr_full_score (calculate_exam_score (exam_to_py Sample.exam) Sample.answers_aba) = 5 /\
  calculate_exam_score (exam_to_py Sample.exam) Sample.answers_number =
    {| sr_total_score := 0;
       sr_full_score := 0;
       sr_percentage := PctZero;
       sr_question_results := [];
       sr_error := Some AttributeError |}.
Proof.
  split; [eexists; split; vm_compute; reflexivity|].
  repeat split; vm_compute; reflexivity.
Qed.

(** C2. A choice question whose stored answer is the integer [k], answered
    with the string [ua]: the turn never fails; the answer is correct
    exactly when [ua] is a letter A to F, in either case, whose alphabet
    offset is [k]; the score is awarded accordingly; and when [k] is an index
    into the options, a letter whose offset is beyond the options is
    incorrect (the options are never indexed on this path). *)
Theorem choice_index_scoring (q : pydict) (k sc : Z) (i : nat) (ua : pystr)
    (answers : answers_map) :
  dict_lookup q (lit "type") = Some (PStr Lit.choice) ->
  dict_lookup q (lit "answer") = Some (PInt k) ->
  isinstance_int (dict_get q (lit "score") (PInt 1)) = Some sc ->
  answers !! str_of_nat i = Some (PStr ua) ->
  exists ts qr,
    score_question i (PDict q) answers = Ok (sc, ts, qr) /\
    qr_is_correct qr =
      match letter_index ua with
      | Some j => j =? k
      | None => false
      end /\
    ts = (if qr_is_correct qr then sc else 0) /\
    (forall j opts,
       letter_index ua = Some j ->
       dict_lookup q (lit "options") = Some (PList opts) ->
       0 <= k < Z.of_nat (length opts) -> Z.of_nat (length opts) <= j ->
       qr_is_correct qr = false).
Proof.
  intros Ht Ha Hs Hu.
  destruct (score_question_decided q i answers sc
              match letter_index ua with Some j => j =? k | None => false end Hs)
    as (qr & Hq & Hc & _).
  { cbv zeta. rewrite Hu, (dict_get_lookup _ _ _ _ Ha), (dict_get_lookup _ _ _ _ Ht).
    cbn [default from_option id eq_str].
    change (pystr_eqb Lit.choice Lit.choice) with true. cbv iota.
    unfold choice_is_correct. cbv zeta. cbn [isinstance_int str].
    destruct (letter_index ua) as [j|] eqn:E.
    - destruct (letter_index_Some _ _ E) as (Hl & Ho & _ & Hne).
      rewrite Hl, Ho, (truthy_str_nonempty _ Hne). cbn [andb]. run.
      now replace (65 + j - 65) with j by lia.
    - now rewrite (letter_index_None _ E), andb_false_r. }
  eexists _, qr. split; [exact Hq|]. split; [exact Hc|]. split; [now rewrite Hc|].
  intros j opts Hj _ Hk Hlen. rewrite Hc, Hj. lia.
Qed.

(** The letters c and E on the second sample question, whose stored answer
    is the index 2 among four options. *)
Lemma choice_index_scoring_witness :
  (exists ts qr,
     score_question 1 (PDict Sample.q2_dict) (<[lit "1" := Sample.text "c"]> ∅)
       = Ok (2, ts, qr) /\ qr_is_correct qr = true /\ ts = 2) /\
  (exists ts qr,
     score_question 1 (PDict Sample.q2_dict) (<[lit "1" := Sample.text "E"]> ∅)
       = Ok (2, ts, qr) /\ qr_is_correct qr = false /\ ts = 0).
Proof.
  split.
  - assert (Hu : (<[lit "1" := Sample.text "c"]> ∅ : answers_map) !! str_of_nat 1
                 = Some (PStr (lit "c"))) by (vm_compute; reflexivity).
    destruct (choice_index_scoring Sample.q2_dict 2 2 1 (lit "c") _
                eq_refl eq_refl eq_refl Hu) as (ts & qr & Hq & Hc & Hts & _).
    exists ts, qr. split; [exact Hq|]. split; [exact Hc|].
    rewrite Hts, Hc. reflexivity.
  - assert (Hu : (<[lit "1" := Sample.text "E"]> ∅ : answers_map) !! str_of_nat 1
                 = Some (PStr (lit "E"))) by (vm_compute; reflexivity).
    destruct (choice_index_scoring Sample.q2_dict 2 2 1 (lit "E") _
                eq_refl eq_refl eq_refl Hu) as (ts & qr & Hq & _ & Hts & Hbeyond).
    assert (Hc : qr_is_correct qr = false).
    { apply (Hbeyond 4 [Sample.text "w"; Sample.text "x"; Sample.text "y"; Sample.text "z"]);
        [reflexivity | reflexivity | cbn; lia | cbn; lia]. }
    exists ts, qr. split; [exact Hq|]. split; [exact Hc|].
    rewrite Hts, Hc. reflexivity.
Defined.

(** A judge question of either stored boolean never counts an empty or
    missing answer as correct: [user_bool] is [None]. *)
Lemma judge_unanswered_incorrect (b : bool) :
  judge_is_correct (PStr []) (PBool b) = Ok false.
Proof. reflexivity. Qed.

(** C3. A judge question whose stored answer is [true]: the raw answer "A"
    is correct and earns the score, "B" is incorrect, and an empty or
    missing answer is incorrect, earns nothing and is displayed as
    "未作答". *)
Theorem judge_true_scoring (q : pydict) (sc : Z) (i : nat) (answers : answers_map) :
  dict_lookup q (lit "type") = Some (PStr Lit.judge) ->
  dict_lookup q (lit "answer") = Some (PBool true) ->
  isinstance_int (dict_get q (lit "score") (PInt 1)) = Some sc ->
  (answers !! str_of_nat i = Some (PStr Lit.A) ->
     exists qr, score_question i (PDict q) answers = Ok (sc, sc, qr)
                /\ qr_is_correct qr = true) /\
  (answers !! str_of_nat i = Some (PStr Lit.B) ->
     exists qr, score_question i (PDict q) answers = Ok (sc, 0, qr)
                /\ qr_is_correct qr = false) /\
  (answers !! str_of_nat i = None \/ answers !! str_of_nat i = Some (PStr []) ->
     exists qr, score_question i (PDict q) answers = Ok (sc, 0, qr)
                /\ qr_is_correct qr = false
                /\ qr_user_answer qr = PStr Lit.weizuoda).
Proof.
  intros Ht Ha Hs.
  assert (Hjudge : forall (ua : pyval) (b : bool),
            default (PStr []) (answers !! str_of_nat i) = ua ->
            judge_is_correct ua (PBool true) = Ok b ->
            exists qr,
              score_question i (PDict q) answers = Ok (sc, (if b then sc else 0), qr)
              /\ qr_is_correct qr = b
              /\ qr_user_answer qr = display_user_answer (PStr Lit.judge) ua).
  { intros ua b Hu Hb.
    destruct (score_question_decided q i answers sc b Hs) as (qr & Hq & Hc & Hd).
    - cbv zeta. rewrite Hu, (dict_get_lookup _ _ _ _ Ha), (dict_get_lookup _ _ _ _ Ht).
      cbn [eq_str]. change (pystr_eqb Lit.judge Lit.choice) with false.
      change (pystr_eqb Lit.judge Lit.judge) with true. exact Hb.
    - exists qr. rewrite Hd, Hu, (dict_get_lookup _ _ _ _ Ht). now repeat split. }
  split; [|split].
  - intros Hu. destruct (Hjudge (PStr Lit.A) true) as (qr & Hq & Hc & _);
      [now rewrite Hu | reflexivity | now exists qr].
  - intros Hu. destruct (Hjudge (PStr Lit.B) false) as (qr & Hq & Hc & _);
      [now rewrite Hu | reflexivity | now exists qr].
  - intros Hu. destruct (Hjudge (PStr []) false) as (qr & Hq & Hc & Hd);
      [now destruct Hu as [-> | ->] | reflexivity | now exists qr].
Qed.

(** The judge question of the sample exam, answered "A". *)
Lemma judge_true_scoring_witness :
  exists qr,
    score_question 2 (PDict Sample.q3_dict) Sample.answers_aba = Ok (1, 1, qr)
    /\ qr_is_correct qr = true.
Proof.
  destruct (judge_true_scoring Sample.q3_dict 1 2 Sample.answers_aba
              eq_refl eq_refl eq_refl) as (HA & _ & _).
  apply HA. vm_compute. reflexivity.
Defined.

(** C4. A choice question whose stored answer is the text [t]: a letter
    answer within the options is resolved to the option at its offset and
    the two texts are compared trimmed; any other answer is compared, trimmed,
    with [t] itself. *)
Theorem choice_text_scoring (q : pydict) (t : pystr) (opts : list pyval)
    (sc : Z) (i : nat) (ua : pystr) (answers : answers_map) :
  dict_lookup q (lit "type") = Some (PStr Lit.choice) ->
  dict_lookup q (lit "answer") = Some (PStr t) ->
  dict_lookup q (lit "options") = Some (PList opts) ->
  isinstance_int (dict_get q (lit "score") (PInt 1)) = Some sc ->
  answers !! str_of_nat i = Some (PStr ua) ->
  (forall j o,
     letter_index ua = Some j -> opts !! Z.to_nat j = Some (PStr o) ->
     exists ts qr,
       score_question i (PDict q) answers = Ok (sc, ts, qr) /\
       qr_is_correct qr = pystr_eqb (strip o) (strip t) /\
       ts = (if qr_is_correct qr then sc else 0)) /\
  (letter_index ua = None ->
     exists ts qr,
       score_question i (PDict q) answers = Ok (sc, ts, qr) /\
       qr_is_correct qr = pystr_eqb (strip ua) (strip t) /\
       ts = (if qr_is_correct qr then sc else 0)).
Proof.
  intros Ht Ha Hopt Hs Hu.
  assert (Hstep : forall b, choice_is_correct q (PStr ua) (PStr t) = Ok b ->
            exists ts qr,
              score_question i (PDict q) answers = Ok (sc, ts, qr) /\
              qr_is_correct qr = b /\ ts = (if qr_is_correct qr then sc else 0)).
  { intros b Hb.
    destruct (score_question_decided q i answers sc b Hs) as (qr & Hq & Hc & _).
    - cbv zeta. rewrite Hu, (dict_get_lookup _ _ _ _ Ha), (dict_get_lookup _ _ _ _ Ht).
      cbn [default from_option id eq_str].
      change (pystr_eqb Lit.choice Lit.choice) with true. exact Hb.
    - eexists _, qr. split; [exact Hq|]. split; [exact Hc | now rewrite Hc]. }
  split.
  - intros j o Hj Ho. apply Hstep.
    destruct (letter_index_Some _ _ Hj) as (Hl & Hord & Hr & _).
    unfold choice_is_correct. cbv zeta. cbn [isinstance_int str].
    rewrite Hl, Hord. run. replace (65 + j - 65) with j by lia.
    rewrite (dict_get_lookup _ _ _ _ Hopt). cbn [len]. run.
    replace (0 <=? j) with true by lia.
    assert (Z.to_nat j < length opts)%nat by (eapply lookup_lt_Some; eassumption).
    replace (j <? Z.of_nat (length opts)) with true by lia.
    cbn [index]. rewrite Ho. run. reflexivity.
  - intros Hn. apply Hstep.
    unfold choice_is_correct. cbv zeta. cbn [isinstance_int str].
    now rewrite (letter_index_None _ Hn).
Qed.

(** The legacy question of the specification: stored answer "北京", options
    "北京" and "上海", raw answer "A". *)
Lemma choice_text_scoring_witness :
  exists ts qr,
    score_question 0 (PDict Sample.legacy_dict) (<[lit "0" := Sample.text "A"]> ∅)
      = Ok (2, ts, qr) /\ qr_is_correct qr = true /\ ts = 2.
Proof.
  assert (Hu : (<[lit "0" := Sample.text "A"]> ∅ : answers_map) !! str_of_nat 0
               = Some (PStr (lit "A"))) by (vm_compute; reflexivity).
  destruct (choice_text_scoring Sample.legacy_dict Sample.beijing
              [PStr Sample.beijing; PStr Sample.shanghai] 2 0 (lit "A") _
              eq_refl eq_refl eq_refl eq_refl Hu) as (Hletter & _).
  destruct (Hletter 0 Sample.beijing eq_refl eq_refl) as (ts & qr & Hq & Hc & Hts).
  exists ts, qr. split; [exact Hq|]. split; [exact Hc|]. rewrite Hts, Hc. reflexivity.
Defined.

(** ** Exam generator *)

Lemma choice_question_weighted x q :
  choice_question x = Ok q -> weighted Lit.choice 2 q.
Proof.
  unfold choice_question. intros H. repeat inv_bind H. injection H as <-. now split.
Qed.

Lemma judge_question_weighted x q :
  judge_question x = Ok q -> weighted Lit.judge 1 q.
Proof.
  unfold judge_question. intros H. repeat inv_bind H. injection H as <-. now split.
Qed.

Lemma sum_scores_app a b : sum_scores (a ++ b) = sum_scores a + sum_scores b.
Proof.
  unfold sum_scores.
  induction a as [|q a IH]; cbn [app foldr]; [reflexivity | rewrite IH; lia].
Qed.

Lemma sum_scores_weighted ty w qs :
  Forall (weighted ty w) qs -> sum_scores qs = Z.of_nat (length qs) * w.
Proof.
  induction 1 as [|q qs [_ Hq] _ IH]; cbn [sum_scores foldr length]; [lia|].
  fold (sum_scores qs). rewrite IH, Hq. lia.
Qed.

Lemma slice_to_length {A} (l : list A) (count : Z) :
  0 <= count -> Z.of_nat (length (slice_to l count)) <= count.
Proof.
  intros H. unfold slice_to. replace (0 <=? count) with true by lia.
  rewrite length_take. lia.
Qed.

Lemma slice_to_nil {A} (count : Z) : slice_to (@nil A) count = [].
Proof. unfold slice_to. destruct (0 <=? count); apply take_nil. Qed.

Lemma slice_to_Forall {A} (P : A -> Prop) (l : list A) (count : Z) :
  Forall P l -> Forall P (slice_to l count).
Proof. intros H. unfold slice_to. destruct (0 <=? count); now apply Forall_take. Qed.

(** The validation of the source accepts exactly the candidates of the
    specification. *)
Lemma valid_candidate_spec qt q :
  valid_candidate qt q = true <-> is_candidate qt q.
Proof.
  unfold valid_candidate, is_candidate, pystr_eqb. split.
  - destruct q as [| | | | |d]; try discriminate. intros H. exists d.
    repeat (apply andb_prop in H as [H ?]). repeat split; try assumption.
    intros Hqt. rewrite (bool_decide_eq_true_2 _ Hqt) in *.
    now destruct (dict_has d (lit "options")).
  - intros (d & -> & -> & -> & -> & Ho). cbn [andb].
    case_bool_decide; [rewrite Ho by assumption|]; reflexivity.
Qed.

Lemma filter_valid_Forall qt (cs : list pyval) :
  Forall (is_candidate qt) (filter (fun q => valid_candidate qt q) cs).
Proof.
  apply Forall_forall. intros q Hq. apply list_elem_of_filter in Hq as [Hq _].
  now apply valid_candidate_spec, Is_true_true.
Qed.

Section GeneratorFacts.

Variable json_loads : pystr -> result pyval.

Lemma parse_response_parses r v :
  strip r <> [] -> parses_to json_loads r v ->
  parse_response json_loads (PStr r) = Ok (Some v).
Proof.
  intros Hr Hp. unfold parse_response.
  assert (r <> []) by (intros ->; now apply Hr).
  unfold pystr_eqb. rewrite !bool_decide_eq_false_2 by assumption. cbn [orb].
  destruct Hp as [-> | (-> & m & -> & ->)]; reflexivity.
Qed.

Lemma parse_response_blank r :
  strip r = [] -> parse_response json_loads (PStr r) = Ok None.
Proof.
  intros Hr. unfold parse_response, pystr_eqb.
  rewrite (bool_decide_eq_true_2 (strip r = [])) by assumption.
  now rewrite orb_true_r.
Qed.

Lemma parse_response_unparsable r :
  unparsable json_loads r ->
  parse_response json_loads (PStr r) = Ok None \/
  exists e, parse_response json_loads (PStr r) = Raise e.
Proof.
  intros (e & He & Hm). unfold parse_response.
  destruct (pystr_eqb r [] || pystr_eqb (strip r) []); [now left|].
  rewrite He. destruct e; try (right; eexists; reflexivity).
  destruct Hm as [-> | (m & e' & -> & ->)]; [now left | right; eexists; reflexivity].
Qed.

Lemma questions_body_valid response qt count l :
  questions_body json_loads response qt count = Ok l ->
  Forall (is_candidate qt) l /\ (0 <= count -> Z.of_nat (length l) <= count).
Proof.
  unfold questions_body.
  destruct (parse_response json_loads response) as [p|]; [|discriminate].
  run. destruct p as [[| | | |cs|]|];
    try (intros [= <-]; split; [constructor | cbn; lia]).
  destruct cs as [|c cs]; intros [= <-]; [split; [constructor | cbn; lia]|].
  split; [apply slice_to_Forall, filter_valid_Forall | apply slice_to_length].
Qed.

Variable ai : pystr -> Z -> pystr -> pyval.

(** C7. Once the chapter names are joined and the model has answered,
    [generate_exam_questions] returns a list and never raises; the list
    holds only valid candidates and, for a count that is not negative, at
    most [count] of them; it is empty when the response cannot be parsed,
    or parses to something that is not an array or to the empty array;
    and when the response parses to an array, it is the valid candidates
    of that array, in order, cut at [count]. *)
Theorem generate_exam_questions_contract (chapters : pyval) (qt : pystr)
    (count : Z) (chapter_str : pystr) :
  join_m [12289] chapters = Ok chapter_str ->
  exists l,
    generate_exam_questions json_loads ai chapters qt count = Ok l /\
    Forall (is_candidate qt) l /\
    (0 <= count -> Z.of_nat (length l) <= count) /\
    (forall r, ai qt count chapter_str = PStr r ->
       (unparsable json_loads r -> l = []) /\
       (forall v, parses_to json_loads r v ->
          (forall cs, v <> PList cs) \/ v = PList [] -> l = []) /\
       (forall cs, strip r <> [] -> parses_to json_loads r (PList cs) ->
          l = slice_to (filter (fun q => valid_candidate qt q) cs) count)).
Proof.
  intros Hj. unfold generate_exam_questions. rewrite Hj. run.
  set (response := ai qt count chapter_str).
  destruct (questions_body json_loads response qt count) as [l|e] eqn:Hb.
  - exists l. destruct (questions_body_valid _ _ _ _ Hb) as [Hv Hc].
    repeat split; try assumption; rewrite H in Hb; unfold questions_body in Hb.
    + intros Hu.
      destruct (parse_response_unparsable r Hu) as [Hp | [e Hp]]; rewrite Hp in Hb;
        [now injection Hb | discriminate].
    + intros v Hp Hv'. destruct (decide (strip r = [])) as [Hr | Hr].
      * rewrite (parse_response_blank r Hr) in Hb. now injection Hb.
      * rewrite (parse_response_parses r v Hr Hp) in Hb. run_in Hb.
        destruct Hv' as [Hv' | ->]; [|now injection Hb].
        destruct v; try (now injection Hb). now destruct (Hv' l0).
    + intros cs Hr Hp. rewrite (parse_response_parses r _ Hr Hp) in Hb.
      run_in Hb. destruct cs; injection Hb as <-;
        [rewrite filter_nil; now rewrite slice_to_nil | reflexivity].
  - exists []. split; [reflexivity|]. split; [constructor|].
    split; [cbn; lia|]. intros r H.
    split; [reflexivity|]. split; [reflexivity|].
    intros cs Hr Hp. rewrite H in Hb. unfold questions_body in Hb.
    rewrite (parse_response_parses r _ Hr Hp) in Hb. run_in Hb.
    destruct cs; discriminate.
Qed.

Lemma generate_block_weighted data chapters ty key w mk out_ty qs total :
  (forall x q, mk x = Ok q -> weighted out_ty w q) ->
  generate_block json_loads ai data chapters ty key w mk = Ok (qs, total) ->
  Forall (weighted out_ty w) qs /\ total = sum_scores qs.
Proof.
  intros Hmk H. unfold generate_block in H.
  inv_bind H. inv_bind H. destruct x0.
  - inv_bind H. destruct x0 as [|c cs].
    + injection H as <- <-. split; [constructor | reflexivity].
    + inv_bind H. injection H as <- <-.
      apply mapM_result_inv in Hx2.
      assert (Forall (weighted out_ty w) x0 /\ length x0 = length (c :: cs))
        as [HF HL].
      { clear -Hmk Hx2. induction Hx2; [split; [constructor|reflexivity]|].
        destruct IHHx2. split; [constructor; eauto | cbn; congruence]. }
      split; [assumption|]. rewrite (sum_scores_weighted _ _ _ HF), HL. reflexivity.
  - injection H as <- <-. split; [constructor | reflexivity].
Qed.

Variable available_subjects : list pystr.

(** C5. Every exam that [generate_exam] returns has a [totalScore] equal
    to the sum of the scores of its questions; each of them is a choice
    question of 2 points or a judge question of 1 point. *)
Theorem generate_exam_total_score (data : pyval) (exam : Exam) :
  generate_exam json_loads ai available_subjects data = Success exam ->
  e_totalScore exam = sum_scores (e_questions exam) /\
  Forall (fun q =>
            (q_type q = Lit.choice /\ q_score q = 2) \/
            (q_type q = Lit.judge /\ q_score q = 1)) (e_questions exam).
Proof.
  unfold generate_exam. destruct (negb (truthy data)); [discriminate|].
  destruct data as [| | | | |d]; try discriminate.
  destruct (generate_exam_body _ _ _ d) as [r|] eqn:Hbody; [|discriminate].
  intros ->. unfold generate_exam_body in Hbody.
  destruct (dict_get d (lit "subject") (PStr [])) as [| | |s| |]; try discriminate.
  repeat match type of Hbody with
         | (if ?c then _ else _) = _ => destruct c; [discriminate|]
         end.
  inv_bind Hbody. destruct x as [cq ct]. inv_bind Hbody. destruct x as [jq jt].
  apply generate_block_weighted with (out_ty := Lit.choice) in Hx;
    [|apply choice_question_weighted].
  apply generate_block_weighted with (out_ty := Lit.judge) in Hx0;
    [|apply judge_question_weighted].
  destruct Hx as [HFc ->], Hx0 as [HFj ->].
  destruct (cq ++ jq) as [|q0 qs] eqn:Hqs; [discriminate|].
  injection Hbody as <-. cbn [e_totalScore e_questions]. rewrite <- Hqs.
  split.
  - rewrite sum_scores_app. lia.
  - apply Forall_app. split; eapply Forall_impl; try eassumption;
      unfold weighted; intros q Hq; [left | right]; exact Hq.
Qed.

End GeneratorFacts.

(** The sample model wraps four candidates, one of them a number, in prose;
    two choice questions are asked for. *)
Lemma generate_exam_questions_contract_witness :
  generate_exam_questions Sample.json_loads Sample.ai Sample.chapters
    Lit.danxiang 2 = Ok [Sample.cand_c1; Sample.cand_c2].
Proof.
  destruct (generate_exam_questions_contract Sample.json_loads Sample.ai
              Sample.chapters Lit.danxiang 2 (lit "ch1" ++ [12289] ++ lit "ch2")
              eq_refl) as (l & Hl & _ & _ & Hr).
  destruct (Hr (lit "Here: [choice] done") eq_refl) as (_ & _ & Hparsed).
  rewrite Hl. f_equal.
  rewrite (Hparsed [Sample.cand_c1; PInt 7; Sample.cand_c2; Sample.cand_c1]).
  - reflexivity.
  - discriminate.
  - right. split; [reflexivity|]. exists (lit "[choice]"). split; reflexivity.
Defined.

(** The end-to-end scenario: two choice questions and a judge question. *)
Lemma generate_exam_total_score_witness :
  generate_exam Sample.json_loads Sample.ai Sample.subjects Sample.request
    = Success Sample.exam /\
  e_totalScore Sample.exam = sum_scores (e_questions Sample.exam).
Proof.
  assert (H : generate_exam Sample.json_loads Sample.ai Sample.subjects
                Sample.request = Success Sample.exam) by (vm_compute; reflexivity).
  split; [exact H|].
  exact (proj1 (generate_exam_total_score Sample.json_loads Sample.ai
                  Sample.subjects Sample.request Sample.exam H)).
Defined.

(** ** Session store *)

Lemma lit_inj a b : lit a = lit b -> a = b.
Proof.
  unfold lit. intros H.
  rewrite <- (string_of_list_ascii_of_string a), <- (string_of_list_ascii_of_string b).
  f_equal. revert H. generalize (list_ascii_of_string a) (list_ascii_of_string b).
  induction l as [|x l IH]; intros [|y k] H; try discriminate; [reflexivity|].
  cbn in H. injection H as Hxy Hlk. f_equal; [|now apply IH].
  apply N2Z.inj in Hxy.
  rewrite <- (Ascii.ascii_N_embedding x), <- (Ascii.ascii_N_embedding y).
  now rewrite Hxy.
Qed.

(** Two integers with the same string form are equal. *)
Lemma str_of_Z_inj a b : str_of_Z a = str_of_Z b -> a = b.
Proof.
  unfold str_of_Z. intros H. apply lit_inj in H.
  apply DecimalZ.to_int_inj.
  assert (Hs : NilEmpty.int_of_string (NilEmpty.string_of_int (Z.to_int a)) =
               NilEmpty.int_of_string (NilEmpty.string_of_int (Z.to_int b)))
    by now rewrite H.
  rewrite !NilEmpty.isi in Hs. now injection Hs.
Qed.

(** [save_answer] on a request that names a session. *)
Lemma save_answer_shape st now sid qi a :
  sid <> [] ->
  save_answer st now (save_request sid qi a) =
    if is_none qi || is_none a then (BadRequest, st)
    else
      match session_files st !! session_file (PStr sid) with
      | None => (NotFound, st)
      | Some Unreadable => (ServerError, st)
      | Some (Stored s) =>
          match update_answer s qi a now with
          | Ok s' =>
              (Success (default 0 (auto_save_count s')),
               write_session st (session_file (PStr sid)) s')
          | Raise _ => (ServerError, st)
          end
      end.
Proof.
  intros Hs. unfold save_answer, save_request.
  change (truthy (PDict _)) with true. cbn [negb].
  change (dict_get _ (lit "session_id") PNone) with (PStr sid).
  change (dict_get _ (lit "question_index") PNone) with qi.
  change (dict_get _ (lit "answer") PNone) with a.
  rewrite (truthy_str_nonempty _ Hs). cbn [andb].
  now destruct (is_none qi), (is_none a).
Qed.

Lemma update_answer_counted s qi a now n :
  auto_save_count s = Some n ->
  exists s', update_answer s qi a now = Ok s' /\
    auto_save_count s' = Some (n + 1) /\
    answers s' = <[str qi := a]> (answers s).
Proof.
  intros Hn. unfold update_answer. cbn [auto_save_count]. rewrite Hn. run.
  eexists. repeat split.
Qed.

Lemma lookup_write_session st name s :
  session_files (write_session st name s) !! name = Some (Stored s).
Proof. unfold write_session. cbn [session_files]. apply lookup_insert_eq. Qed.

Lemma success_seq_shift (n : Z) (N : nat) :
  (fun k => Success (n + Z.of_nat k)) <$> seq 1 (S N) =
  Success (n + 1) :: ((fun k => Success (n + 1 + Z.of_nat k)) <$> seq 1 N).
Proof.
  cbn [seq fmap list_fmap]. f_equal.
  rewrite <- fmap_S_seq, <- list_fmap_compose. apply list_fmap_ext.
  intros _ k _. cbn [compose]. f_equal. lia.
Qed.

(** A run of saves on a session that has a counter: every call succeeds and
    reports the next count, the counter grows by the number of calls and
    the answers are inserted one after the other. *)
Lemma run_saves_counted sid calls : forall st s n,
  sid <> [] ->
  Forall (fun c => c.2 <> PNone) calls ->
  session_files st !! session_file (PStr sid) = Some (Stored s) ->
  auto_save_count s = Some n ->
  exists st' s',
    run_saves st sid (as_request <$> calls) =
      ((fun k => Success (n + Z.of_nat k)) <$> seq 1 (length calls), st') /\
    session_files st' !! session_file (PStr sid) = Some (Stored s') /\
    auto_save_count s' = Some (n + Z.of_nat (length calls)) /\
    answers s' = ins_all (answers s) calls.
Proof.
  induction calls as [|[[t i] a] calls IH]; intros st s n Hsid Hall Hst Hn.
  - exists st, s. cbn. repeat split; try assumption. rewrite Hn. f_equal. lia.
  - inversion Hall as [|? ? Ha Hall']; subst. cbn [snd] in Ha.
    cbn [fmap list_fmap as_request fst snd run_saves].
    rewrite (save_answer_shape st t sid (PInt i) a Hsid), (is_none_false _ Ha), Hst.
    cbn [is_none orb].
    destruct (update_answer_counted s (PInt i) a t n Hn) as (s1 & -> & Hn1 & Hm1).
    rewrite Hn1. cbn [default from_option id].
    destruct (IH (write_session st (session_file (PStr sid)) s1) s1 (n + 1) Hsid Hall'
                (lookup_write_session _ _ _) Hn1)
      as (st' & s' & Hrun & Hst' & Hn' & Hm').
    fold (fmap (M:=list) as_request calls). rewrite Hrun.
    exists st', s'. split; [|split; [assumption|split]].
    + cbn [length]. now rewrite success_seq_shift.
    + rewrite Hn'. f_equal. cbn [length]. lia.
    + rewrite Hm', Hm1. reflexivity.
Qed.

(** The answers map after calls on fresh, pairwise distinct keys: one more
    entry per call, and each call's answer under its key. *)
Lemma ins_all_entries calls : forall m : answers_map,
  NoDup (key_of <$> calls) ->
  (forall c, c ∈ calls -> m !! key_of c = None) ->
  size (ins_all m calls) = (size m + length calls)%nat /\
  forall k v, ins_all m calls !! k = Some v <->
              m !! k = Some v \/ exists c, c ∈ calls /\ k = key_of c /\ v = c.2.
Proof.
  induction calls as [|c calls IH]; intros m Hnd Hfresh.
  - cbn. split; [lia|]. intros k v. split; [now left|].
    intros [H | (c & Hc & _)]; [assumption | now apply elem_of_nil in Hc].
  - apply NoDup_cons in Hnd as [Hc Hnd]. cbn [ins_all foldl].
    fold (ins_all (<[key_of c := c.2]> m) calls).
    destruct (IH (<[key_of c := c.2]> m) Hnd) as [Hsize Hlook].
    { intros c' Hc'. rewrite lookup_insert_ne.
      - apply Hfresh. now right.
      - intros Heq. apply Hc. rewrite Heq. now apply list_elem_of_fmap_2. }
    split.
    + rewrite Hsize, map_size_insert_None by (apply Hfresh; now left).
      cbn [length]. lia.
    + intros k v. rewrite Hlook. split.
      * intros [H | (c' & Hc' & Hk & Hv)].
        -- destruct (decide (key_of c = k)) as [<- | Hne].
           ++ rewrite lookup_insert_eq in H. injection H as <-.
              right. exists c. split; [now left | now split].
           ++ rewrite lookup_insert_ne in H by assumption. now left.
        -- right. exists c'. split; [now right | now split].
      * intros [H | (c' & Hc' & Hk & Hv)].
        -- left. rewrite lookup_insert_ne; [assumption|].
           intros <-. rewrite Hfresh in H by now left. discriminate.
        -- apply elem_of_cons in Hc' as [-> | Hc'].
           ++ left. subst. apply lookup_insert_eq.
           ++ right. exists c'. split; [assumption | now split].
Qed.

Lemma NoDup_keys (calls : list (pystr * Z * pyval)) :
  NoDup ((fun c => c.1.2) <$> calls) -> NoDup (key_of <$> calls).
Proof.
  intros H.
  replace (key_of <$> calls) with (str_of_Z <$> ((fun c => c.1.2) <$> calls))
    by (rewrite <- list_fmap_compose; reflexivity).
  apply NoDup_fmap_2; [intros a b; apply str_of_Z_inj | assumption].
Qed.

Lemma start_exam_Success st stamp h now data sid exam t0 st1 :
  start_exam st stamp h now data = (Success (sid, exam, t0), st1) ->
  sid <> [] /\
  exists s, st1 = write_session st (session_file (PStr sid)) s /\
            auto_save_count s = Some 0 /\ answers s = ∅ /\
            sess_status s = in_progress.
Proof.
  unfold start_exam. destruct (negb (truthy data)); [discriminate|].
  destruct data as [| | | | |d]; try discriminate.
  destruct (negb (truthy (dict_get d (lit "exam") PNone))); [discriminate|].
  intros [= <- <- <- <-]. split; [discriminate|].
  eexists. repeat split.
Qed.

Lemma create_exam_session_Success st stamp hex now data sid st1 :
  create_exam_session st stamp hex now data = (Success sid, st1) ->
  sid <> [] /\
  exists s, st1 = write_session st (session_file (PStr sid)) s /\
            auto_save_count s = None /\ answers s = ∅ /\
            sess_status s = not_started.
Proof.
  unfold create_exam_session. destruct (negb (truthy data)); [discriminate|].
  destruct data as [| | |s|l|d]; try discriminate.
  - destruct (is_substring _ _); discriminate.
  - destruct (existsb _ _); discriminate.
  - destruct (dict_lookup d (lit "exam")); [|discriminate].
    intros [= <- <-]. split; [discriminate|]. eexists. repeat split.
Qed.

(** C6. A session opened by [start_exam], then [N] calls of [save_answer]
    on pairwise distinct integer question indices, each with an answer:
    every call succeeds and reports its rank, [auto_save_count] is [N], and
    the answers map has exactly [N] entries, the answer of each call under
    the string form of its index. *)
Theorem save_count_and_entries (st : store) (stamp : pystr) (h : Z)
    (now : pystr) (data : pyval) (sid : pystr) (exam : pyval) (t0 : pystr)
    (st1 : store) (calls : list (pystr * Z * pyval)) :
  start_exam st stamp h now data = (Success (sid, exam, t0), st1) ->
  NoDup ((fun c => c.1.2) <$> calls) ->
  Forall (fun c => c.2 <> PNone) calls ->
  exists st2 s,
    run_saves st1 sid (as_request <$> calls) =
      ((fun k => Success (Z.of_nat k)) <$> seq 1 (length calls), st2) /\
    session_files st2 !! session_file (PStr sid) = Some (Stored s) /\
    auto_save_count s = Some (Z.of_nat (length calls)) /\
    size (answers s) = length calls /\
    forall k v, answers s !! k = Some v <->
                exists c, c ∈ calls /\ k = str_of_Z c.1.2 /\ v = c.2.
Proof.
  intros Hstart Hnd Hall.
  destruct (start_exam_Success _ _ _ _ _ _ _ _ _ Hstart)
    as (Hsid & s & -> & Hn & Hm & _).
  destruct (run_saves_counted sid calls (write_session st (session_file (PStr sid)) s) s 0)
    as (st2 & s2 & Hrun & Hst2 & Hn2 & Hm2);
    [assumption | assumption | apply lookup_write_session | assumption |].
  rewrite Hm in Hm2.
  destruct (ins_all_entries calls ∅ (NoDup_keys _ Hnd)) as [Hsize Hlook];
    [intros; apply lookup_empty|].
  exists st2, s2. split; [|split; [assumption|split; [|split]]].
  - rewrite Hrun. f_equal.
  - rewrite Hn2. f_equal.
  - rewrite Hm2, Hsize, map_size_empty. reflexivity.
  - intros k v. rewrite Hm2, Hlook, lookup_empty. unfold key_of. split.
    + intros [? | ?]; [discriminate | assumption].
    + intros ?; now right.
Qed.

(** The three saves of the sample scenario. *)
Lemma save_count_and_entries_witness :
  exists st2 s,
    run_saves Sample.st1 Sample.sid (as_request <$> Sample.calls) =
      ([Success 1; Success 2; Success 3], st2) /\
    session_files st2 !! session_file (PStr Sample.sid) = Some (Stored s) /\
    auto_save_count s = Some 3 /\
    size (answers s) = 3%nat.
Proof.
  assert (Hstart : start_exam Sample.st0 Sample.stamp 42 Sample.t0 Sample.start_request
                   = (Success (Sample.sid, exam_to_py Sample.exam, Sample.t0), Sample.st1))
    by (vm_compute; reflexivity).
  assert (Hnd : NoDup ((fun c : pystr * Z * pyval => c.1.2) <$> Sample.calls))
    by (apply (bool_decide_unpack _); vm_compute; exact I).
  assert (Hall : Forall (fun c : pystr * Z * pyval => c.2 <> PNone) Sample.calls)
    by (repeat constructor; discriminate).
  destruct (save_count_and_entries _ _ _ _ _ _ _ _ _ _ Hstart Hnd Hall)
    as (st2 & s & Hrun & Hst & Hn & Hsize & _).
  exists st2, s. repeat split; assumption.
Defined.

Lemma run_saves_no_counter sid s calls : forall st,
  sid <> [] ->
  session_files st !! session_file (PStr sid) = Some (Stored s) ->
  auto_save_count s = None ->
  run_saves st sid calls = (refusal <$> calls, st).
Proof.
  induction calls as [|[[t qi] a] calls IH]; intros st Hsid Hst Hn; [reflexivity|].
  cbn [run_saves fmap list_fmap]. rewrite (save_answer_shape _ _ _ _ _ Hsid), Hst.
  unfold update_answer. cbn [auto_save_count]. rewrite Hn.
  change (Raise KeyError ≫= _) with (@Raise Session KeyError).
  cbv iota. unfold refusal at 1. cbn [fst snd].
  destruct (is_none qi || is_none a); fold (fmap (M:=list) refusal calls);
    now rewrite (IH st Hsid Hst Hn).
Qed.

(** C9. A session opened by [create_exam_session] is persisted without
    [auto_save_count] and with no answers; whatever [save_answer] calls
    follow on its id, the store stays as it was, and every call that carries
    a question index and an answer is answered by a server error. *)
Theorem no_save_without_counter (st : store) (stamp hex now : pystr)
    (data : pyval) (sid : pystr) (st1 : store)
    (calls : list (pystr * pyval * pyval)) :
  create_exam_session st stamp hex now data = (Success sid, st1) ->
  (exists s, session_files st1 !! session_file (PStr sid) = Some (Stored s) /\
             auto_save_count s = None /\ answers s = ∅) /\
  run_saves st1 sid calls = (refusal <$> calls, st1) /\
  (Forall (fun c => c.1.2 <> PNone /\ c.2 <> PNone) calls ->
   (run_saves st1 sid calls).1 = replicate (length calls) ServerError).
Proof.
  intros Hc. destruct (create_exam_session_Success _ _ _ _ _ _ _ Hc)
    as (Hsid & s & -> & Hn & Hm & _).
  pose proof (lookup_write_session st (session_file (PStr sid)) s) as Hl.
  split; [exists s; now repeat split|].
  rewrite (run_saves_no_counter sid s calls _ Hsid Hl Hn).
  split; [reflexivity|]. cbn [fst].
  induction 1 as [|c calls [Hq Ha] _ IH]; [reflexivity|].
  cbn [fmap list_fmap length replicate]. f_equal; [|exact IH].
  unfold refusal. destruct c as [[t qi] a]. cbn [fst snd] in *.
  destruct qi, a; try reflexivity; congruence.
Qed.

(** Two saves on the session of the sample [create_exam_session]. *)
Lemma no_save_without_counter_witness :
  run_saves Sample.st1' Sample.sid'
    [(Sample.t1, PInt 0, Sample.text "A"); (Sample.t2, PInt 1, Sample.text "B")]
  = ([ServerError; ServerError], Sample.st1').
Proof.
  assert (Hc : create_exam_session Sample.st0 Sample.stamp Sample.hex Sample.t0
                 Sample.create_request = (Success Sample.sid', Sample.st1'))
    by (vm_compute; reflexivity).
  destruct (no_save_without_counter _ _ _ _ _ _ _
              [(Sample.t1, PInt 0, Sample.text "A"); (Sample.t2, PInt 1, Sample.text "B")]
              Hc) as (_ & Hrun & _).
  exact Hrun.
Defined.

(** ** Record archive *)

(** C10. [submit_exam] on a session that is already completed: it
    succeeds again, scores the session's current answers, stamps the new
    submission time as [end_time], and writes the outcome both to the
    session unit and to the archive unit of the session. *)
Theorem resubmit_overwrites (st : store) (now sid : pystr) (s : Session) :
  sid <> [] ->
  session_files st !! session_file (PStr sid) = Some (Stored s) ->
  sess_status s = completed ->
  exists s' st',
    submit_exam st now (submit_request sid) =
      (Success (calculate_exam_score (exam_data s) (answers s), s'), st') /\
    sess_status s' = completed /\
    end_time s' = Some now /\
    score_result s' = Some (calculate_exam_score (exam_data s) (answers s)) /\
    answers s' = answers s /\ exam_data s' = exam_data s /\
    session_files st' !! session_file (PStr sid) = Some (Stored s') /\
    record_files st' !! record_file (PStr sid) = Some (Stored s').
Proof.
  intros Hsid Hst _. unfold submit_exam, submit_request.
  change (truthy (PDict _)) with true. cbn [negb].
  change (dict_get _ (lit "session_id") PNone) with (PStr sid).
  rewrite (truthy_str_nonempty _ Hsid). cbn [negb]. rewrite Hst.
  eexists _, _. split; [reflexivity|].
  cbn [sess_status end_time score_result answers exam_data].
  repeat split.
  - unfold write_record, write_session. cbn [session_files]. apply lookup_insert_eq.
  - unfold write_record. cbn [record_files]. apply lookup_insert_eq.
Qed.

(** The sample session, submitted at 11:00, is submitted again at 11:30. *)
Lemma resubmit_overwrites_witness :
  end_time Sample.submitted = Some Sample.t4 /\
  exists s' st',
    submit_exam Sample.st3 Sample.t5 (submit_request Sample.sid) =
      (Success (calculate_exam_score (exam_data Sample.submitted)
                  (answers Sample.submitted), s'), st') /\
    end_time s' = Some Sample.t5 /\
    record_files st' !! record_file (PStr Sample.sid) = Some (Stored s').
Proof.
  split; [vm_compute; reflexivity|].
  assert (Hst : session_files Sample.st3 !! session_file (PStr Sample.sid)
                = Some (Stored Sample.submitted)) by (vm_compute; reflexivity).
  assert (Hc : sess_status Sample.submitted = completed) by (vm_compute; reflexivity).
  destruct (resubmit_overwrites Sample.st3 Sample.t5 Sample.sid Sample.submitted
              ltac:(discriminate) Hst Hc)
    as (s' & st' & Hsub & _ & He & _ & _ & _ & _ & Hr).
  exists s', st'. repeat split; assumption.
Defined.

Lemma pystr_ltb_cotrans a : forall b c,
  pystr_ltb a c = true -> pystr_ltb a b = true \/ pystr_ltb b c = true.
Proof.
  induction a as [|x a IH]; intros [|y b] [|z c] H; cbn in *; try discriminate; auto.
  destruct (Z.ltb_spec x z) as [Hxz|Hxz]; cbn in H.
  - destruct (Z.ltb_spec x y); [now left|]. right.
    replace (y <? z) with true by lia. reflexivity.
  - destruct (Z.eqb_spec x z) as [->|]; [|discriminate]. cbn in H.
    destruct (Z.ltb_spec z y); [now left|].
    destruct (Z.ltb_spec y z); [now right|].
    replace (z =? y) with true by lia. replace (y =? z) with true by lia. cbn.
    apply IH, H.
Qed.

Lemma pystr_ltb_asym a : forall b, pystr_ltb a b = true -> pystr_ltb b a = false.
Proof.
  induction a as [|x a IH]; intros [|y b] H; cbn in *; try discriminate; auto.
  destruct (Z.ltb_spec x y); cbn in H.
  - replace (y <? x) with false by lia. replace (y =? x) with false by lia.
    reflexivity.
  - destruct (Z.eqb_spec x y) as [->|]; [|discriminate]. cbn in H.
    rewrite Z.ltb_irrefl, Z.eqb_refl. cbn. now apply IH.
Qed.

Lemma pystr_ltb_nil_false s : pystr_ltb [] s = false -> s = [].
Proof. destruct s; [reflexivity | discriminate]. Qed.

Lemma not_older_trans a b c : not_older a b -> not_older b c -> not_older a c.
Proof.
  unfold not_older. intros Hab Hbc.
  destruct (pystr_ltb (sm_end_time a) (sm_end_time c)) eqn:Hac; [|reflexivity].
  destruct (pystr_ltb_cotrans _ (sm_end_time b) _ Hac); congruence.
Qed.

Lemma insert_desc_perm x l : insert_desc x l ≡ₚ x :: l.
Proof.
  induction l as [|y l IH]; cbn; [reflexivity|].
  destruct (pystr_ltb _ _); [|reflexivity].
  rewrite IH. apply Permutation_swap.
Qed.

Lemma sort_desc_perm l : sort_desc l ≡ₚ l.
Proof.
  induction l as [|x l IH]; cbn; [reflexivity|].
  fold (sort_desc l). now rewrite insert_desc_perm, IH.
Qed.

Lemma insert_desc_sorted x l :
  StronglySorted not_older l -> StronglySorted not_older (insert_desc x l).
Proof.
  induction 1 as [|y l Hl IH Hy]; cbn; [repeat constructor|].
  destruct (pystr_ltb (sm_end_time x) (sm_end_time y)) eqn:Hxy.
  - constructor; [assumption|].
    apply Forall_forall. intros z Hz.
    rewrite insert_desc_perm in Hz. apply elem_of_cons in Hz as [-> | Hz].
    + unfold not_older. now apply pystr_ltb_asym.
    + rewrite Forall_forall in Hy. now apply Hy.
  - constructor; [now constructor|]. constructor; [exact Hxy|].
    eapply Forall_impl; [exact Hy|]. intros z Hz. eapply not_older_trans; eassumption.
Qed.

Lemma sort_desc_sorted l : StronglySorted not_older (sort_desc l).
Proof.
  induction l as [|x l IH]; cbn; [constructor|]. now apply insert_desc_sorted.
Qed.

Lemma StronglySorted_lookup {A} (R : A -> A -> Prop) l i j a b :
  StronglySorted R l -> (i < j)%nat -> l !! i = Some a -> l !! j = Some b -> R a b.
Proof.
  intros Hs. revert i j. induction Hs as [|x l Hl IH Hx]; intros i j Hij Ha Hb.
  - now rewrite lookup_nil in Ha.
  - destruct i as [|i], j as [|j]; try lia; cbn in Ha, Hb.
    + injection Ha as <-. rewrite Forall_forall in Hx. apply Hx.
      eapply list_elem_of_lookup_2; eassumption.
    + eapply IH; [|eassumption..]. lia.
Qed.

Lemma read_records_archived st names sm :
  sm ∈ read_records st names <-> archived st names sm.
Proof.
  unfold read_records, archived. rewrite list_elem_of_omap. split.
  - intros (name & Hn & H). destruct (endswith name _) eqn:He; [|discriminate].
    destruct (record_files st !! name) as [f|] eqn:Hf; [|discriminate].
    destruct (summarize f) as [sm'|] eqn:Hs; [|discriminate].
    injection H as <-. now exists name, f.
  - intros (name & f & Hn & He & Hf & Hs). exists name. split; [assumption|].
    now rewrite He, Hf, Hs.
Qed.

Lemma read_records_cons st n names :
  read_records st (n :: names) =
    match read_records st [n] with
    | [] => read_records st names
    | sm :: _ => sm :: read_records st names
    end.
Proof.
  unfold read_records. cbn [omap list_omap].
  destruct (endswith n _); [|reflexivity].
  destruct (record_files st !! n) as [f|]; [|reflexivity].
  destruct (summarize f); reflexivity.
Qed.

Lemma read_records_unreadable st n :
  readable st n <> true -> read_records st [n] = [].
Proof.
  unfold readable, read_records. cbn [omap list_omap]. intros H.
  destruct (record_files st !! n) as [[|s]|]; try congruence.
  now destruct (endswith n _).
Qed.

(** Corrupt units do not show in what the loop collects. *)
Lemma read_records_skip st names :
  read_records st (filter (fun n => readable st n = true) names) =
  read_records st names.
Proof.
  induction names as [|n names IH]; [reflexivity|].
  rewrite filter_cons. case_decide as Hr.
  - rewrite (read_records_cons st n names),
      (read_records_cons st n (filter _ names)), IH.
    reflexivity.
  - rewrite (read_records_cons st n names), (read_records_unreadable _ _ Hr).
    exact IH.
Qed.

(** C8, as the code has it. [get_exam_records] returns the summaries of the
    archive units that can be read, each once, sorted by [end_time] from the
    largest to the smallest in the order of strings; a record without
    [end_time] has the empty string as its key and is followed only by
    records without [end_time]: it is listed last; corrupt units change
    nothing in the listing. *)
Theorem records_newest_first (st : store) (names : list pystr) :
  get_exam_records st names ≡ₚ read_records st names /\
  (forall sm, sm ∈ get_exam_records st names <-> archived st names sm) /\
  StronglySorted not_older (get_exam_records st names) /\
  (forall i j a b, (i < j)%nat ->
     get_exam_records st names !! i = Some a ->
     get_exam_records st names !! j = Some b ->
     sm_end_time a = [] -> sm_end_time b = []) /\
  get_exam_records st (filter (fun n => readable st n = true) names)
    = get_exam_records st names.
Proof.
  unfold get_exam_records.
  split; [apply sort_desc_perm|].
  split; [intros sm; rewrite sort_desc_perm; apply read_records_archived|].
  split; [apply sort_desc_sorted|]. split.
  - intros i j a b Hij Ha Hb He.
    pose proof (StronglySorted_lookup _ _ _ _ _ _ (sort_desc_sorted _) Hij Ha Hb) as H.
    unfold not_older in H. rewrite He in H. now apply pystr_ltb_nil_false.
  - f_equal. apply read_records_skip.
Qed.

(** The sample archive lists its unit without [end_time] first in the folder;
    the listing puts it last, after the record submitted at 11:00, and not
    first. *)
Lemma missing_end_time_listed_last :
  (fun sm => (sm_session_id sm, sm_end_time sm))
    <$> get_exam_records Sample.archive Sample.names
  = [(Sample.sid, Sample.t4); (lit "exam_a", [])] /\
  head (sm_end_time <$> get_exam_records Sample.archive Sample.names) <> Some [].
Proof.
  split; [vm_compute; reflexivity|].
  vm_compute. discriminate.
Qed.

(** The end-to-end scenario of the specification: the generated exam of
    two choice questions and a judge question, answered A, B, A and
    submitted, scores 3 of 5, that is 60 percent. *)
Lemma end_to_end_scenario :
  (fun r => (sr_total_score r, sr_full_score r, sr_percentage r, sr_error r))
    <$> score_result Sample.submitted
  = Some (3, 5, PctRound2 3 5, None).
Proof. vm_compute. reflexivity. Qed.

(** * Further properties of the code *)

(** ** The scoring engine on whole exams *)

Lemma score_question_inv i q answers fs ts qr :
  score_question i q answers = Ok (fs, ts, qr) ->
  qr_question_index qr = i /\ fs = int_of (qr_full_score qr) /\
  ts = int_of (qr_earned_score qr) /\ consistent_entry qr.
Proof.
  unfold score_question. intros H.
  inv_bind H. inv_bind H. inv_bind H. inv_bind H. inv_bind H. inv_bind H.
  inv_bind H. inv_bind H. injection H as <- <- <-.
  unfold consistent_entry, int_of. cbn.
  unfold add_int in Hx0, Hx4.
  destruct (isinstance_int x) as [n|] eqn:En; [|discriminate].
  injection Hx0 as <-.
  destruct (isinstance_int (if x3 then x else PInt 0)) as [m|] eqn:Em; [|discriminate].
  injection Hx4 as <-. cbn. repeat split; try lia. congruence.
Qed.

Lemma sum_int_app a b : sum_int (a ++ b) = sum_int a + sum_int b.
Proof.
  unfold sum_int. induction a as [|v a IH]; cbn [app foldr]; [reflexivity | rewrite IH; lia].
Qed.

Lemma score_loop_inv questions answers : forall i total full results t' f' r',
  score_loop i questions answers total full results = Ok (t', f', r') ->
  exists new,
    r' = results ++ new /\
    length new = length questions /\
    qr_question_index <$> new = seq i (length questions) /\
    t' = total + sum_int (qr_earned_score <$> new) /\
    f' = full + sum_int (qr_full_score <$> new) /\
    Forall consistent_entry new.
Proof.
  induction questions as [|q questions IH]; intros i total full results t' f' r' H.
  - cbn in H. injection H as <- <- <-. exists []. rewrite app_nil_r. cbn.
    repeat split; try lia. constructor.
  - cbn [score_loop] in H. inv_bind H. destruct x as [[fs ts] qr].
    destruct (score_question_inv _ _ _ _ _ _ Hx) as (Hi & Hfs & Hts & Hc).
    destruct (IH _ _ _ _ _ _ _ H) as (new & -> & Hlen & Hidx & -> & -> & HF).
    exists (qr :: new). rewrite <- app_assoc. cbn [app length fmap list_fmap seq].
    fold (fmap (M:=list) qr_question_index new).
    fold (fmap (M:=list) qr_earned_score new).
    fold (fmap (M:=list) qr_full_score new).
    repeat split.
    + now rewrite Hlen.
    + now rewrite Hi, Hidx.
    + unfold sum_int at 2. cbn [foldr]. fold (sum_int (qr_earned_score <$> new)). lia.
    + unfold sum_int at 2. cbn [foldr]. fold (sum_int (qr_full_score <$> new)). lia.
    + now constructor.
Qed.

Lemma calculate_exam_score_no_error exam_data answers :
  sr_error (calculate_exam_score exam_data answers) = None ->
  score_body exam_data answers = Ok (calculate_exam_score exam_data answers).
Proof.
  unfold calculate_exam_score. destruct (score_body exam_data answers); [reflexivity | discriminate].
Qed.

Lemma score_body_inv exam_data answers r :
  score_body exam_data answers = Ok r ->
  exists questions,
    exam_questions exam_data = Ok questions /\
    length (sr_question_results r) = length questions /\
    qr_question_index <$> sr_question_results r = seq 0 (length questions) /\
    sr_total_score r = sum_int (qr_earned_score <$> sr_question_results r) /\
    sr_full_score r = sum_int (qr_full_score <$> sr_question_results r) /\
    Forall consistent_entry (sr_question_results r).
Proof.
  intros Hb. unfold score_body in Hb.
  inv_bind Hb. inv_bind Hb. inv_bind Hb. destruct x1 as [[total full] results].
  inv_bind Hb. injection Hb as Hr. exists x0.
  split; [unfold exam_questions; now rewrite Hx|].
  destruct (score_loop_inv _ _ _ _ _ _ _ _ _ Hx1) as (new & -> & Hlen & Hidx & -> & -> & HF).
  rewrite <- Hr. cbn. repeat split; try assumption; lia.
Qed.

(** X1. When [calculate_exam_score] reports no error, its result adds up:
    there is one entry per question of the exam, in order and numbered from
    0; [total_score] is the sum of the entries' [earned_score] and
    [full_score] the sum of their [full_score]; and every entry earns its
    full score when it is marked correct and 0 otherwise. *)
Theorem score_result_accounting (exam_data : pyval) (answers : answers_map) :
  sr_error (calculate_exam_score exam_data answers) = None ->
  let r := calculate_exam_score exam_data answers in
  exists questions,
    exam_questions exam_data = Ok questions /\
    length (sr_question_results r) = length questions /\
    qr_question_index <$> sr_question_results r = seq 0 (length questions) /\
    sr_total_score r = sum_int (qr_earned_score <$> sr_question_results r) /\
    sr_full_score r = sum_int (qr_full_score <$> sr_question_results r) /\
    Forall consistent_entry (sr_question_results r).
Proof.
  intros He r. apply (score_body_inv exam_data answers). now apply calculate_exam_score_no_error.
Qed.

Lemma choice_question_generated x q : choice_question x = Ok q -> generated q.
Proof.
  unfold choice_question. intros H. repeat inv_bind H. injection H as <-.
  left. cbn. eauto.
Qed.

Lemma judge_question_generated x q : judge_question x = Ok q -> generated q.
Proof.
  unfold judge_question. intros H. repeat inv_bind H. injection H as <-.
  right. cbn. eauto.
Qed.

Lemma question_to_py_lookups q :
  exists d, question_to_py q = PDict d /\
    dict_lookup d (lit "type") = Some (PStr (q_type q)) /\
    dict_lookup d (lit "answer") = Some (q_answer q) /\
    dict_lookup d (lit "score") = Some (PInt (q_score q)).
Proof.
  unfold question_to_py. eexists. split; [reflexivity|].
  destruct (q_options q); repeat split; reflexivity.
Qed.

(** One turn of the loop on a generated question and string answers. *)
Lemma score_question_generated q i answers :
  generated q -> string_answers answers ->
  exists (b : bool) qr,
    score_question i (question_to_py q) answers
      = Ok (q_score q, (if b then q_score q else 0), qr) /\
    qr_is_correct qr = b /\
    (answers !! str_of_nat i = None -> b = false).
Proof.
  intros Hg Hstr. destruct (question_to_py_lookups q) as (d & -> & Ht & Ha & Hs).
  assert (Hua : exists s, default (PStr []) (answers !! str_of_nat i) = PStr s /\
                          (answers !! str_of_nat i = None -> s = [])).
  { destruct (answers !! str_of_nat i) as [v|] eqn:Hv.
    - destruct (Hstr _ _ Hv) as [s ->]. exists s. split; [reflexivity | discriminate].
    - exists []. split; reflexivity. }
  destruct Hua as (s & Hua & Hmiss).
  assert (Hb : exists b,
            (let user_answer := default (PStr []) (answers !! str_of_nat i) in
             let correct_answer := dict_get d (lit "answer") (PStr []) in
             let qtype := dict_get d (lit "type") PNone in
             (if eq_str qtype Lit.choice
              then choice_is_correct d user_answer correct_answer
              else if eq_str qtype Lit.judge
                   then judge_is_correct user_answer correct_answer
                   else other_is_correct user_answer) = Ok b) /\
            (s = [] -> b = false)).
  { cbv zeta. rewrite Hua, (dict_get_lookup _ _ _ _ Ha), (dict_get_lookup _ _ _ _ Ht).
    destruct Hg as [(Hty & _ & k & Hk) | (Hty & _ & b & Hk)]; rewrite Hty, Hk; cbn [eq_str].
    - change (pystr_eqb Lit.choice Lit.choice) with true. cbv iota.
      unfold choice_is_correct. cbv zeta. cbn [isinstance_int str].
      destruct (truthy (PStr s) && is_letter (upper (strip s))) eqn:E.
      + apply andb_prop in E as [Et El]. destruct (is_letter_ord _ El) as [c ->].
        run. eexists. split; [reflexivity|]. intros ->. discriminate.
      + now exists false.
    - change (pystr_eqb Lit.judge Lit.choice) with false.
      change (pystr_eqb Lit.judge Lit.judge) with true. cbv iota.
      unfold judge_is_correct. cbn [upper_m]. run. eexists. split; [reflexivity|].
      now intros ->. }
  destruct Hb as (b & Hb & Hbm).
  assert (Hsc : isinstance_int (dict_get d (lit "score") (PInt 1)) = Some (q_score q))
    by now rewrite (dict_get_lookup _ _ _ _ Hs).
  destruct (score_question_decided d i answers (q_score q) b Hsc Hb) as (qr & Hqr & Hc & _).
  exists b, qr. split; [exact Hqr|]. split; [exact Hc|]. intros Hn. apply Hbm, Hmiss, Hn.
Qed.

Lemma sum_scores_nonneg qs : Forall generated qs -> 0 <= sum_scores qs.
Proof.
  unfold sum_scores. induction 1 as [|q qs Hq _ IH]; cbn [foldr]; [lia|].
  destruct Hq as [(_ & -> & _) | (_ & -> & _)]; lia.
Qed.

(** The loop on generated questions and string answers. *)
Lemma score_loop_generated qs answers : forall i total full results,
  Forall generated qs -> string_answers answers ->
  exists earned new,
    score_loop i (question_to_py <$> qs) answers total full results
      = Ok (total + earned, full + sum_scores qs, results ++ new) /\
    0 <= earned <= sum_scores qs /\
    length new = length qs /\
    ((forall j, (i <= j < i + length qs)%nat -> answers !! str_of_nat j = None) ->
     earned = 0 /\ Forall (fun qr => qr_is_correct qr = false) new).
Proof.
  induction qs as [|q qs IH]; intros i total full results Hq Hs.
  - exists 0, []. cbn. rewrite app_nil_r, !Z.add_0_r. repeat split; try lia. constructor.
  - apply Forall_cons in Hq as [Hq Hqs].
    destruct (score_question_generated q i answers Hq Hs) as (b & qr & Hsq & Hc & Hm).
    cbn [fmap list_fmap score_loop]. rewrite Hsq. run.
    fold (fmap (M:=list) question_to_py qs).
    destruct (IH (S i) (total + (if b then q_score q else 0)) (full + q_score q)
                (results ++ [qr]) Hqs Hs) as (earned & new & Hl & Hb & Hlen & Hmiss).
    exists ((if b then q_score q else 0) + earned), (qr :: new).
    pose proof (sum_scores_nonneg qs Hqs) as Hnn.
    assert (0 <= q_score q) by (destruct Hq as [(_ & -> & _) | (_ & -> & _)]; lia).
    unfold sum_scores in *. cbn [foldr length]. split; [|split; [|split]].
    + rewrite Hl, <- app_assoc. cbn [app].
      replace (total + (if b then q_score q else 0) + earned)
        with (total + ((if b then q_score q else 0) + earned)) by lia.
      replace (full + q_score q + foldr (fun q0 acc => q_score q0 + acc) 0 qs)
        with (full + (q_score q + foldr (fun q0 acc => q_score q0 + acc) 0 qs)) by lia.
      reflexivity.
    + destruct b; lia.
    + now rewrite Hlen.
    + intros Hnone. destruct Hmiss as [-> HF]; [intros j Hj; apply Hnone; lia|].
      assert (b = false) as -> by (apply Hm, Hnone; lia).
      split; [lia|]. constructor; assumption.
Qed.

Section GeneratorShape.
Variable json_loads : pystr -> result pyval.
Variable ai : pystr -> Z -> pystr -> pyval.

Lemma generate_exam_questions_length chapters qt count l :
  generate_exam_questions json_loads ai chapters qt count = Ok l ->
  0 <= count -> Z.of_nat (length l) <= count.
Proof.
  unfold generate_exam_questions. intros H Hc. inv_bind H.
  destruct (questions_body _ _ _ _) as [l'|] eqn:Hb.
  - injection H as <-. now apply (questions_body_valid _ _ _ _ _ Hb).
  - injection H as <-. cbn. lia.
Qed.

(** What a block of [generate_exam] yields. *)
Lemma generate_block_inv (P : Question -> Prop) data chapters ty key w mk qs total :
  (forall x q, mk x = Ok q -> P q) ->
  generate_block json_loads ai data chapters ty key w mk = Ok (qs, total) ->
  Forall P qs /\ total = Z.of_nat (length qs) * w /\
  Z.of_nat (length qs) <= Z.max 0 (int_of (dict_get data key (PInt 0))).
Proof.
  intros Hmk H. unfold generate_block in H.
  inv_bind H. inv_bind H. destruct x0.
  - destruct x; [|discriminate]. unfold positive_m in Hx0.
    destruct (isinstance_int (dict_get data key (PInt 0))) as [n|] eqn:En; [|discriminate].
    injection Hx0 as Hn. cbn [default from_option id] in H.
    inv_bind H.
    assert (Hn0 : 0 <= n) by lia.
    pose proof (generate_exam_questions_length _ _ _ _ Hx0 Hn0) as Hlen.
    unfold int_of. rewrite En. cbn [default from_option id].
    destruct x as [|c cs].
    + injection H as <- <-. split; [constructor|]. cbn. lia.
    + inv_bind H. injection H as <- <-. apply mapM_result_inv in Hx1.
      assert (Forall P x /\ length x = length (c :: cs)) as [HF HL].
      { clear -Hmk Hx1. induction Hx1; [split; [constructor|reflexivity]|].
        destruct IHHx1. split; [constructor; eauto | cbn; congruence]. }
      split; [assumption|]. rewrite HL. split; [reflexivity | lia].
  - injection H as <- <-. split; [constructor|]. cbn. lia.
Qed.
End GeneratorShape.

Lemma percentage_of_bounded total full :
  0 <= total <= full -> exists p, percentage_of total full = Ok p.
Proof.
  intros H. unfold percentage_of. destruct (0 <? full) eqn:E; [|eauto].
  assert (HK : 2 <= 2 ^ 1024 - 2 ^ 970) by (vm_compute; discriminate).
  generalize dependent (2 ^ 1024 - 2 ^ 970). intros K HK.
  replace (K * full <=? Z.abs total) with false by nia. eauto.
Qed.

(** The scoring engine on an exam of generated questions. *)
Lemma score_generated_exam (e : Exam) (answers : answers_map) :
  Forall generated (e_questions e) -> string_answers answers ->
  let r := calculate_exam_score (exam_to_py e) answers in
  sr_error r = None /\
  sr_full_score r = sum_scores (e_questions e) /\
  0 <= sr_total_score r <= sr_full_score r /\
  length (sr_question_results r) = length (e_questions e) /\
  ((forall j, (j < length (e_questions e))%nat -> answers !! str_of_nat j = None) ->
   sr_total_score r = 0 /\
   Forall (fun qr => qr_is_correct qr = false) (sr_question_results r)).
Proof.
  intros Hg Hs. cbv zeta. unfold calculate_exam_score, score_body, exam_to_py.
  cbn [get_m].
  change (dict_get _ (lit "questions") (PList []))
    with (PList (question_to_py <$> e_questions e)).
  run. cbn [iter]. run.
  destruct (score_loop_generated (e_questions e) answers 0%nat 0 0 [] Hg Hs)
    as (earned & new & -> & Hb & Hlen & Hmiss).
  run. cbn [app]. rewrite !Z.add_0_l.
  destruct (percentage_of_bounded earned (sum_scores (e_questions e)) Hb) as [p ->].
  run. cbn. split; [reflexivity|]. split; [reflexivity|]. split; [lia|].
  split; [assumption|]. intros Hnone. apply Hmiss. intros j Hj. apply Hnone. lia.
Qed.

Section GeneratorShape2.
Variable json_loads : pystr -> result pyval.
Variable ai : pystr -> Z -> pystr -> pyval.
Variable available_subjects : list pystr.

Lemma generate_exam_inv (data : pyval) (exam : Exam) :
  generate_exam json_loads ai available_subjects data = Success exam ->
  exists d cq jq,
    data = PDict d /\ e_questions exam = cq ++ jq /\ cq ++ jq <> [] /\
    e_totalScore exam = sum_scores (cq ++ jq) /\
    Forall (fun q => generated q /\ weighted Lit.choice 2 q) cq /\
    Forall (fun q => generated q /\ weighted Lit.judge 1 q) jq /\
    Z.of_nat (length cq) <= Z.max 0 (int_of (dict_get d (lit "choice_count") (PInt 0))) /\
    Z.of_nat (length jq) <= Z.max 0 (int_of (dict_get d (lit "judge_count") (PInt 0))).
Proof.
  unfold generate_exam. destruct (negb (truthy data)); [discriminate|].
  destruct data as [| | | | |d]; try discriminate.
  destruct (generate_exam_body _ _ _ d) as [r|] eqn:Hbody; [|discriminate].
  intros ->. unfold generate_exam_body in Hbody.
  destruct (dict_get d (lit "subject") (PStr [])) as [| | |s| |]; try discriminate.
  repeat match type of Hbody with
         | (if ?c then _ else _) = _ => destruct c; [discriminate|]
         end.
  inv_bind Hbody. destruct x as [cq ct]. inv_bind Hbody. destruct x as [jq jt].
  apply (generate_block_inv _ _ (fun q => generated q /\ weighted Lit.choice 2 q)) in Hx;
    [|intros x q Hq; split; [eapply choice_question_generated | eapply choice_question_weighted]; eassumption].
  apply (generate_block_inv _ _ (fun q => generated q /\ weighted Lit.judge 1 q)) in Hx0;
    [|intros x q Hq; split; [eapply judge_question_generated | eapply judge_question_weighted]; eassumption].
  destruct Hx as (HFc & -> & Hlc), Hx0 as (HFj & -> & Hlj).
  destruct (cq ++ jq) as [|q0 qs] eqn:Hqs; [discriminate|].
  injection Hbody as <-. cbn [e_totalScore e_questions]. exists d, cq, jq.
  rewrite <- Hqs. repeat split; try assumption.
  - rewrite Hqs. discriminate.
  - rewrite sum_scores_app.
    rewrite (sum_scores_weighted Lit.choice 2 cq), (sum_scores_weighted Lit.judge 1 jq).
    + lia.
    + eapply Forall_impl; [exact HFj | now intros q [_ ?]].
    + eapply Forall_impl; [exact HFc | now intros q [_ ?]].
Qed.

(** X2. An exam that [generate_exam] returned, scored on answers that are
    strings: [calculate_exam_score] reports no error, its [full_score] is
    the exam's [totalScore], the total lies between 0 and the full score, and
    there is one entry per question. *)
Theorem generated_exam_scores_cleanly (data : pyval) (exam : Exam)
    (answers : answers_map) :
  generate_exam json_loads ai available_subjects data = Success exam ->
  string_answers answers ->
  let r := calculate_exam_score (exam_to_py exam) answers in
  sr_error r = None /\
  sr_full_score r = e_totalScore exam /\
  0 <= sr_total_score r <= sr_full_score r /\
  length (sr_question_results r) = length (e_questions exam).
Proof.
  intros Hgen Hs. destruct (generate_exam_inv _ _ Hgen)
    as (d & cq & jq & _ & Hq & _ & Ht & HFc & HFj & _).
  assert (Hg : Forall generated (e_questions exam)).
  { rewrite Hq. apply Forall_app. split; eapply Forall_impl; try eassumption;
      now intros q [? _]. }
  destruct (score_generated_exam exam answers Hg Hs) as (He & Hf & Hb & Hl & _).
  cbv zeta. rewrite Ht, <- Hq. now repeat split.
Qed.

(** X3. An exam that [generate_exam] returned, scored when no question has an
    answer: no error, a total of 0 out of the exam's [totalScore], and every
    entry is incorrect and earns 0. *)
Theorem unanswered_exam_scores_zero (data : pyval) (exam : Exam)
    (answers : answers_map) :
  generate_exam json_loads ai available_subjects data = Success exam ->
  string_answers answers ->
  (forall j, (j < length (e_questions exam))%nat -> answers !! str_of_nat j = None) ->
  let r := calculate_exam_score (exam_to_py exam) answers in
  sr_error r = None /\ sr_total_score r = 0 /\ sr_full_score r = e_totalScore exam /\
  Forall (fun qr => qr_is_correct qr = false /\ qr_earned_score qr = PInt 0)
    (sr_question_results r).
Proof.
  intros Hgen Hs Hnone. destruct (generate_exam_inv _ _ Hgen)
    as (d & cq & jq & _ & Hq & _ & Ht & HFc & HFj & _).
  assert (Hg : Forall generated (e_questions exam)).
  { rewrite Hq. apply Forall_app. split; eapply Forall_impl; try eassumption;
      now intros q [? _]. }
  destruct (score_generated_exam exam answers Hg Hs) as (He & Hf & Hb & Hl & Hm).
  destruct (Hm Hnone) as [Hz HF].
  cbv zeta. rewrite Ht, <- Hq. repeat split; try assumption.
  destruct (score_body_inv _ _ _ (calculate_exam_score_no_error _ _ He))
    as (_ & _ & _ & _ & _ & _ & Hcons). rewrite Forall_forall in *. intros qr Hqr.
  specialize (HF qr Hqr). specialize (Hcons qr Hqr). split; [assumption|].
  destruct Hcons as [Hc _]. now rewrite HF in Hc.
Qed.

(** X4. The shape of an exam [generate_exam] returns: the request was a JSON
    object; the questions are the choice questions followed by the judge
    questions; there is at least one question, so [totalScore] is at least 1;
    and neither kind has more questions than the request's [choice_count]
    and [judge_count] asked for. *)
Theorem generate_exam_shape (data : pyval) (exam : Exam) :
  generate_exam json_loads ai available_subjects data = Success exam ->
  exists d cq jq,
    data = PDict d /\ e_questions exam = cq ++ jq /\ e_questions exam <> [] /\
    1 <= e_totalScore exam /\
    Forall (fun q => q_type q = Lit.choice) cq /\
    Forall (fun q => q_type q = Lit.judge) jq /\
    Z.of_nat (length cq) <= Z.max 0 (int_of (dict_get d (lit "choice_count") (PInt 0))) /\
    Z.of_nat (length jq) <= Z.max 0 (int_of (dict_get d (lit "judge_count") (PInt 0))).
Proof.
  intros Hgen. destruct (generate_exam_inv _ _ Hgen)
    as (d & cq & jq & Hd & Hq & Hne & Ht & HFc & HFj & Hlc & Hlj).
  exists d, cq, jq. rewrite Hq. repeat split; try assumption.
  - rewrite Ht, sum_scores_app.
    rewrite (sum_scores_weighted Lit.choice 2 cq), (sum_scores_weighted Lit.judge 1 jq).
    + destruct cq, jq; cbn [length] in *; try lia. now destruct Hne.
    + eapply Forall_impl; [exact HFj | now intros q [_ ?]].
    + eapply Forall_impl; [exact HFc | now intros q [_ ?]].
  - eapply Forall_impl; [exact HFc | now intros q [_ [? _]]].
  - eapply Forall_impl; [exact HFj | now intros q [_ [? _]]].
Qed.
End GeneratorShape2.

Lemma string_answers_empty : string_answers ∅.
Proof. intros k v H. now rewrite lookup_empty in H. Qed.

Lemma string_answers_insert (k s : pystr) (m : answers_map) :
  string_answers m -> string_answers (<[k := PStr s]> m).
Proof.
  intros Hm k' v H. destruct (decide (k = k')) as [->|Hne].
  - rewrite lookup_insert_eq in H. injection H as <-. eauto.
  - rewrite lookup_insert_ne in H by assumption. eauto.
Qed.

Lemma string_answers_aba : string_answers Sample.answers_aba.
Proof. repeat apply string_answers_insert. apply string_answers_empty. Qed.

(** The sample exam with the answers A, B, A. *)
Lemma score_result_accounting_witness :
  sr_error (calculate_exam_score (exam_to_py Sample.exam) Sample.answers_aba) = None /\
  exists questions,
    exam_questions (exam_to_py Sample.exam) = Ok questions /\
    length (sr_question_results
              (calculate_exam_score (exam_to_py Sample.exam) Sample.answers_aba))
      = length questions.
Proof.
  assert (H : sr_error (calculate_exam_score (exam_to_py Sample.exam)
                          Sample.answers_aba) = None) by (vm_compute; reflexivity).
  split; [exact H|].
  destruct (score_result_accounting (exam_to_py Sample.exam) Sample.answers_aba H)
    as (questions & Hq & Hl & _).
  exists questions. split; assumption.
Defined.

(** The sample request, its exam, and the answers A, B, A. *)
Lemma generated_exam_scores_cleanly_witness :
  generate_exam Sample.json_loads Sample.ai Sample.subjects Sample.request
    = Success Sample.exam /\
  sr_full_score (calculate_exam_score (exam_to_py Sample.exam) Sample.answers_aba)
    = e_totalScore Sample.exam.
Proof.
  assert (H : generate_exam Sample.json_loads Sample.ai Sample.subjects
                Sample.request = Success Sample.exam) by (vm_compute; reflexivity).
  split; [exact H|].
  exact (proj1 (proj2 (generated_exam_scores_cleanly Sample.json_loads Sample.ai
                  Sample.subjects Sample.request Sample.exam Sample.answers_aba
                  H string_answers_aba))).
Defined.

(** The sample exam, handed in empty. *)
Lemma unanswered_exam_scores_zero_witness :
  sr_total_score (calculate_exam_score (exam_to_py Sample.exam) ∅) = 0.
Proof.
  assert (H : generate_exam Sample.json_loads Sample.ai Sample.subjects
                Sample.request = Success Sample.exam) by (vm_compute; reflexivity).
  refine (proj1 (proj2 (unanswered_exam_scores_zero Sample.json_loads Sample.ai
                  Sample.subjects Sample.request Sample.exam ∅
                  H string_answers_empty _))).
  intros j _. apply lookup_empty.
Defined.

(** The sample request and its exam. *)
Lemma generate_exam_shape_witness :
  exists d cq jq, Sample.request = PDict d /\ e_questions Sample.exam = cq ++ jq.
Proof.
  assert (H : generate_exam Sample.json_loads Sample.ai Sample.subjects
                Sample.request = Success Sample.exam) by (vm_compute; reflexivity).
  destruct (generate_exam_shape Sample.json_loads Sample.ai Sample.subjects
              Sample.request Sample.exam H) as (d & cq & jq & Hd & Hq & _).
  exists d, cq, jq. split; assumption.
Defined.

(** ** Edge cases of one question *)

Lemma score_question_malformed i q answers :
  malformed q -> exists e, score_question i q answers = Raise e.
Proof.
  intros [Hq | (d & -> & Hs)].
  - destruct q; try (eexists; reflexivity). now destruct (Hq d).
  - unfold score_question. cbn [get_m]. run. unfold add_int. rewrite Hs.
    eexists; reflexivity.
Qed.

Lemma score_loop_malformed questions answers : forall i total full results,
  Exists malformed questions ->
  exists e, score_loop i questions answers total full results = Raise e.
Proof.
  induction questions as [|q questions IH]; intros i total full results H.
  - inversion H.
  - cbn [score_loop]. destruct (score_question i q answers) as [[[fs ts] qr]|e] eqn:E.
    + run. apply IH. apply Exists_cons in H as [H|H]; [|assumption].
      destruct (score_question_malformed i q answers H) as [e He]. congruence.
    + eexists; reflexivity.
Qed.

(** X5. One question that is not a dictionary, or whose [score] is not a
    number, voids the whole result: whatever the other questions and the
    answers are, [calculate_exam_score] returns the zero result of its
    [except] branch, with an error, no entries and a full score of 0. *)
Theorem malformed_question_voids_result (exam_data : pyval)
    (answers : answers_map) (questions : list pyval) :
  exam_questions exam_data = Ok questions ->
  Exists malformed questions ->
  voided (calculate_exam_score exam_data answers).
Proof.
  intros Hq Hm. unfold calculate_exam_score, score_body.
  unfold exam_questions in Hq. inv_bind Hq. rewrite Hx. run. rewrite Hq. run.
  destruct (score_loop_malformed questions answers 0%nat 0 0 [] Hm) as [e ->].
  cbn. repeat split. discriminate.
Qed.

(** A well-formed question followed by a string. *)
Lemma malformed_question_voids_result_witness :
  voided (calculate_exam_score
            (PDict [(lit "questions", PList [question_to_py Sample.q1; PStr (lit "q")])])
            Sample.answers_aba).
Proof.
  apply (malformed_question_voids_result _ _
           [question_to_py Sample.q1; PStr (lit "q")]); [reflexivity|].
  apply Exists_cons_tl, Exists_cons_hd. left. discriminate.
Defined.

(** The entry of a question once [is_correct] is decided. *)
Lemma score_question_entry (q : pydict) (i : nat) (answers : answers_map)
    (sc : Z) (b : bool) :
  isinstance_int (dict_get q (lit "score") (PInt 1)) = Some sc ->
  (let user_answer := default (PStr []) (answers !! str_of_nat i) in
   let correct_answer := dict_get q (lit "answer") (PStr []) in
   let qtype := dict_get q (lit "type") PNone in
   (if eq_str qtype Lit.choice then choice_is_correct q user_answer correct_answer
    else if eq_str qtype Lit.judge then judge_is_correct user_answer correct_answer
    else other_is_correct user_answer) = Ok b) ->
  score_question i (PDict q) answers =
    Ok (sc, (if b then sc else 0),
        {| qr_question_index := i;
           qr_question := dict_get q (lit "question") (PStr []);
           qr_user_answer :=
             display_user_answer (dict_get q (lit "type") PNone)
               (default (PStr []) (answers !! str_of_nat i));
           qr_correct_answer :=
             display_correct_answer (dict_get q (lit "type") PNone)
               (dict_get q (lit "answer") (PStr []));
           qr_is_correct := b;
           qr_earned_score :=
             if b then dict_get q (lit "score") (PInt 1) else PInt 0;
           qr_full_score := dict_get q (lit "score") (PInt 1);
           qr_question_type := dict_get q (lit "type") (PStr Lit.unknown) |}).
Proof.
  intros Hs Hb. cbv zeta in Hb. unfold score_question. cbn [get_m]. run.
  rewrite (add_int_Some _ _ _ Hs). run. rewrite Hb. run. destruct b.
  - rewrite (add_int_Some _ _ _ Hs). run. reflexivity.
  - rewrite add_int_zero. run. reflexivity.
Qed.

(** X6. A question whose type is neither [choice] nor [judge], on answers that
    are strings: the turn never fails, and the question earns its full score
    exactly when its answer is present and not blank; the stored answer is
    not looked at. *)
Theorem free_text_scoring (q : pydict) (sc : Z) (i : nat) (answers : answers_map) :
  eq_str (dict_get q (lit "type") PNone) Lit.choice = false ->
  eq_str (dict_get q (lit "type") PNone) Lit.judge = false ->
  isinstance_int (dict_get q (lit "score") (PInt 1)) = Some sc ->
  string_answers answers ->
  exists qr,
    score_question i (PDict q) answers
      = Ok (sc, (if qr_is_correct qr then sc else 0), qr) /\
    qr_is_correct qr =
      match answers !! str_of_nat i with
      | Some (PStr ua) => negb (pystr_eqb (strip ua) [])
      | _ => false
      end.
Proof.
  intros Hc Hj Hs Ha.
  set (b := match answers !! str_of_nat i with
            | Some (PStr ua) => negb (pystr_eqb (strip ua) [])
            | _ => false
            end).
  pose proof (score_question_entry q i answers sc b Hs) as H.
  match type of H with _ -> _ = Ok (_, _, ?r) => exists r end.
  split; [|reflexivity]. apply H. cbv zeta. rewrite Hc, Hj.
  unfold other_is_correct, b.
  destruct (answers !! str_of_nat i) as [v|] eqn:E; cbn [default from_option id].
  - destruct (Ha _ _ E) as [ua ->]. destruct ua as [|c ua]; [reflexivity|].
    cbn [truthy strip_m]. run. f_equal.
    destruct (strip (c :: ua)); reflexivity.
  - reflexivity.
Qed.

(** An essay question of 10 points, answered with a padded letter. *)
Lemma free_text_scoring_witness :
  exists qr,
    score_question 0
      (PDict [(lit "type", Sample.text "essay"); (lit "score", PInt 10)])
      (<[lit "0" := Sample.text " x "]> ∅)
      = Ok (10, (if qr_is_correct qr then 10 else 0), qr) /\
    qr_is_correct qr = true.
Proof.
  destruct (free_text_scoring
              [(lit "type", Sample.text "essay"); (lit "score", PInt 10)] 10 0%nat
              (<[lit "0" := Sample.text " x "]> ∅) eq_refl eq_refl eq_refl)
    as (qr & Hq & Hc).
  - apply string_answers_insert, string_answers_empty.
  - exists qr. split; [exact Hq|]. rewrite Hc. vm_compute. reflexivity.
Defined.

Lemma is_letter_inv s :
  is_letter s = true -> exists c, s = [c] /\ 65 <= c <= 70.
Proof.
  destruct s as [|c [|c' s]]; [discriminate | | now rewrite is_letter_long].
  rewrite is_letter_single. intros H. exists c. split; [reflexivity | lia].
Qed.

(** X7. A choice question whose stored answer is an integer outside 0 to 5
    cannot be answered correctly: whatever the answers hold, of whatever
    type, the turn succeeds, marks the question incorrect and awards 0. *)
Theorem choice_index_out_of_range_never_correct (q : pydict) (k sc : Z)
    (i : nat) (answers : answers_map) :
  dict_lookup q (lit "type") = Some (PStr Lit.choice) ->
  dict_lookup q (lit "answer") = Some (PInt k) ->
  isinstance_int (dict_get q (lit "score") (PInt 1)) = Some sc ->
  k < 0 \/ 5 < k ->
  exists qr,
    score_question i (PDict q) answers = Ok (sc, 0, qr) /\
    qr_is_correct qr = false.
Proof.
  intros Ht Ha Hs Hk. eexists. split.
  - apply (score_question_entry q i answers sc false Hs). cbv zeta.
    rewrite (dict_get_lookup _ _ _ _ Ha), (dict_get_lookup _ _ _ _ Ht).
    assert (Hc : eq_str (PStr Lit.choice) Lit.choice = true) by reflexivity.
    rewrite Hc. unfold choice_is_correct. cbv zeta. cbn [isinstance_int].
    destruct (truthy _ && is_letter _) eqn:E; [|reflexivity].
    apply andb_prop in E as [_ E]. apply is_letter_inv in E as (c & -> & Hc').
    cbn [ord]. run. f_equal. lia.
  - reflexivity.
Qed.

(** A stored index of 6, answered with the seventh letter. *)
Lemma choice_index_out_of_range_never_correct_witness :
  exists qr,
    score_question 0
      (PDict [(lit "type", PStr Lit.choice); (lit "answer", PInt 6)])
      (<[lit "0" := Sample.text "G"]> ∅) = Ok (1, 0, qr) /\
    qr_is_correct qr = false.
Proof.
  apply (choice_index_out_of_range_never_correct
           [(lit "type", PStr Lit.choice); (lit "answer", PInt 6)] 6 1 0%nat
           (<[lit "0" := Sample.text "G"]> ∅) eq_refl eq_refl eq_refl).
  right. lia.
Defined.

(** X8. A choice question whose stored answer is an index [k] from 0 to 5,
    answered with a string: the entry displays the [k]-th letter as the
    correct answer, and the question is marked correct exactly when the
    answer, trimmed and upper-cased, is that displayed letter. *)
Theorem marked_correct_iff_displayed_letter (q : pydict) (k sc : Z) (i : nat)
    (ua : pystr) (answers : answers_map) :
  dict_lookup q (lit "type") = Some (PStr Lit.choice) ->
  dict_lookup q (lit "answer") = Some (PInt k) ->
  isinstance_int (dict_get q (lit "score") (PInt 1)) = Some sc ->
  answers !! str_of_nat i = Some (PStr ua) ->
  0 <= k <= 5 ->
  exists ts qr,
    score_question i (PDict q) answers = Ok (sc, ts, qr) /\
    qr_correct_answer qr = PStr [65 + k] /\
    (qr_is_correct qr = true <-> PStr (upper (strip ua)) = qr_correct_answer qr).
Proof.
  intros Ht Ha Hs Hu Hk.
  assert (Hc : eq_str (PStr Lit.choice) Lit.choice = true) by reflexivity.
  assert (Hb : exists b, choice_is_correct q (PStr ua) (PInt k) = Ok b /\
                 (b = true <-> upper (strip ua) = [65 + k])).
  { unfold choice_is_correct. cbv zeta. cbn [isinstance_int str].
    destruct (is_letter (upper (strip ua))) eqn:E.
    - apply is_letter_inv in E as (c & E & Hc'). rewrite E.
      assert (Hne : truthy (PStr ua) = true).
      { destruct ua; [discriminate E | reflexivity]. }
      rewrite Hne. cbn [andb ord]. run. eexists. split; [reflexivity|].
      rewrite Z.eqb_eq. split; [intros <-; f_equal; lia | intros [= ->]; lia].
    - rewrite andb_false_r. exists false. split; [reflexivity|].
      split; [discriminate|]. intros E'. rewrite E', is_letter_single in E. lia. }
  destruct Hb as (b & Hb & Hiff). eexists _, _. split.
  - apply (score_question_entry q i answers sc b Hs). cbv zeta.
    rewrite Hu, (dict_get_lookup _ _ _ _ Ha), (dict_get_lookup _ _ _ _ Ht), Hc.
    exact Hb.
  - cbn [qr_correct_answer qr_is_correct].
    rewrite (dict_get_lookup _ _ _ _ Ha), (dict_get_lookup _ _ _ _ Ht).
    unfold display_correct_answer. rewrite Hc. cbn [isinstance_int].
    replace ((0 <=? k) && (k <=? 5)) with true by lia.
    split; [reflexivity|]. rewrite Hiff. split; [now intros -> | now intros [= ->]].
Qed.

(** The second question of the sample exam, answered B where C is right. *)
Lemma marked_correct_iff_displayed_letter_witness :
  exists ts qr,
    score_question 1 (PDict Sample.q2_dict) Sample.answers_aba = Ok (2, ts, qr) /\
    qr_correct_answer qr = PStr (lit "C").
Proof.
  assert (Hu : Sample.answers_aba !! str_of_nat 1 = Some (PStr (lit "B")))
    by (vm_compute; reflexivity).
  destruct (marked_correct_iff_displayed_letter Sample.q2_dict 2 2 1%nat (lit "B")
              Sample.answers_aba eq_refl eq_refl eq_refl Hu ltac:(lia))
    as (ts & qr & Hq & Hc & _).
  exists ts, qr. split; assumption.
Defined.

(** ** The generator's helpers, and generator and engine together *)

Lemma from_first_Some c s t :
  from_first c s = Some t <->
  exists pre rest, s = pre ++ c :: rest /\ t = c :: rest /\ c ∉ pre.
Proof.
  revert t. induction s as [|x s IH]; intros t; cbn [from_first].
  - split; [discriminate|]. intros (pre & rest & H & _). now destruct pre.
  - destruct (Z.eqb_spec x c) as [->|Hne].
    + split.
      * intros [= <-]. exists [], s.
        split; [reflexivity|]. split; [reflexivity | apply not_elem_of_nil].
      * intros (pre & rest & H & -> & Hpre). destruct pre as [|y pre].
        -- cbn in H. now injection H as <-.
        -- cbn in H. injection H as <- _. exfalso. apply Hpre. left.
    + rewrite IH. split.
      * intros (pre & rest & -> & -> & Hpre). exists (x :: pre), rest.
        split; [reflexivity|]. split; [reflexivity|].
        rewrite not_elem_of_cons. split; [congruence | assumption].
      * intros (pre & rest & H & -> & Hpre). destruct pre as [|y pre].
        -- cbn in H. injection H as -> _. congruence.
        -- cbn in H. injection H as <- ->. exists pre, rest.
           split; [reflexivity|]. split; [reflexivity|].
           rewrite not_elem_of_cons in Hpre. tauto.
Qed.

Lemma from_first_None c s : from_first c s = None <-> c ∉ s.
Proof.
  induction s as [|x s IH]; cbn [from_first].
  - split; [intros _; apply not_elem_of_nil | reflexivity].
  - destruct (Z.eqb_spec x c) as [->|Hne].
    + split; [discriminate|]. intros H. exfalso. apply H. left.
    + rewrite IH, not_elem_of_cons. split; [intros ?; split; [congruence | assumption] | tauto].
Qed.

Lemma elem_of_rev (x : Z) (l : list Z) : x ∈ rev l <-> x ∈ l.
Proof. rewrite !list_elem_of_In. symmetry. apply in_rev. Qed.

(** X9. What the fallback search of [generate_exam_questions] extracts from a
    response: the text from the first opening bracket to the last closing
    bracket after it, and nothing when no closing bracket follows an opening
    one. *)
Theorem search_array_spec (s m : pystr) :
  search_array s = Some m <->
  exists pre mid post,
    s = pre ++ [91] ++ mid ++ [93] ++ post /\ m = [91] ++ mid ++ [93] /\
    (91 ∉ pre) /\ (93 ∉ post).
Proof.
  unfold search_array. split.
  - destruct (from_first 91 s) as [[|x rest]|] eqn:E; try discriminate.
    apply from_first_Some in E as (pre & rest' & -> & [= -> ->] & Hpre).
    destruct (from_first 93 (rev rest')) as [r|] eqn:E2; [|discriminate].
    apply from_first_Some in E2 as (p2 & r2 & Hrev & -> & Hp2).
    intros [= <-]. exists pre, (rev r2), (rev p2).
    assert (Hr : rest' = rev r2 ++ [93] ++ rev p2).
    { rewrite <- (rev_involutive rest'), Hrev, rev_app_distr. cbn [rev].
      now rewrite <- app_assoc. }
    split; [now rewrite Hr|]. split; [reflexivity|]. split; [assumption|].
    now rewrite elem_of_rev.
  - intros (pre & mid & post & -> & -> & Hpre & Hpost).
    assert (E : from_first 91 (pre ++ [91] ++ mid ++ [93] ++ post)
                = Some (91 :: mid ++ [93] ++ post)).
    { apply from_first_Some. exists pre, (mid ++ [93] ++ post).
      split; [reflexivity|]. split; [reflexivity | assumption]. }
    rewrite E.
    assert (E2 : from_first 93 (rev (mid ++ [93] ++ post)) = Some (93 :: rev mid)).
    { apply from_first_Some. exists (rev post), (rev mid).
      split; [|split; [reflexivity | now rewrite elem_of_rev]].
      rewrite !rev_app_distr. cbn [rev app]. now rewrite <- app_assoc. }
    rewrite E2. cbn [rev]. now rewrite rev_involutive.
Qed.

Lemma first_index_Some {A} (p : A -> result bool) (l : list A) : forall i j,
  first_index p i l = Ok (Some j) ->
  exists k x, j = (i + k)%nat /\ l !! k = Some x /\ p x = Ok true /\
    forall k' y, (k' < k)%nat -> l !! k' = Some y -> p y = Ok false.
Proof.
  induction l as [|x l IH]; intros i j H; cbn [first_index] in H; [discriminate|].
  inv_bind H. destruct x0.
  - injection H as <-. exists 0%nat, x. repeat split; [lia | assumption | lia].
  - destruct (IH _ _ H) as (k & y & -> & Hk & Hy & Hbefore).
    exists (S k), y. repeat split; [lia | assumption | assumption |].
    intros [|k'] z Hlt Hz; cbn in Hz.
    + now injection Hz as <-.
    + apply (Hbefore k'); [lia | assumption].
Qed.

Lemma first_index_None {A} (p : A -> result bool) (l : list A) : forall i,
  first_index p i l = Ok None -> Forall (fun x => p x = Ok false) l.
Proof.
  induction l as [|x l IH]; intros i H; cbn [first_index] in H; [constructor|].
  inv_bind H. destruct x0; [discriminate|]. constructor; eauto.
Qed.

Lemma first_index_hit {A} (p : A -> result bool) (l : list A) (k : nat) (x : A) :
  forall i,
  l !! k = Some x -> p x = Ok true ->
  (forall k' y, (k' < k)%nat -> l !! k' = Some y -> p y = Ok false) ->
  first_index p i l = Ok (Some (i + k)%nat).
Proof.
  revert k. induction l as [|y l IH]; intros k i Hk Hx Hbefore; [discriminate|].
  cbn [first_index]. destruct k as [|k].
  - cbn in Hk. injection Hk as ->. rewrite Hx. run. do 2 f_equal. lia.
  - rewrite (Hbefore 0%nat y) by (lia || reflexivity). run.
    rewrite (IH k (S i)); [do 2 f_equal; lia | exact Hk | exact Hx |].
    intros k' z Hlt Hz. apply (Hbefore (S k')); [lia | exact Hz].
Qed.

Lemma is_prefix_refl s : is_prefix s s = true.
Proof. induction s as [|c s IH]; cbn; [reflexivity | now rewrite Z.eqb_refl]. Qed.

Lemma is_substring_refl s : is_substring s s = true.
Proof. destruct s; cbn [is_substring]; now rewrite is_prefix_refl. Qed.

(** The two tests of the loops of lines 925-934. *)
Lemma exact_test_true answer_text option :
  (a ← strip_m answer_text; o ← strip_m option; Ok (pystr_eqb a o)) = Ok true ->
  exists a o, answer_text = PStr a /\ option = PStr o /\ strip a = strip o.
Proof.
  destruct answer_text; try discriminate. destruct option; try discriminate.
  cbn [strip_m]. run. intros [= H]. apply bool_decide_eq_true_1 in H. eauto.
Qed.

Lemma partial_test_true answer_text option :
  (a ← strip_m answer_text; o ← strip_m option;
   if is_substring a o then Ok true
   else o' ← strip_m option; a' ← strip_m answer_text; Ok (is_substring o' a'))
    = Ok true ->
  exists a o, answer_text = PStr a /\ option = PStr o /\
    (is_substring (strip a) (strip o) = true \/ is_substring (strip o) (strip a) = true).
Proof.
  destruct answer_text; try discriminate. destruct option; try discriminate.
  cbn [strip_m]. run. destruct (is_substring (strip s) (strip s0)) eqn:E.
  - eauto 6.
  - run. intros [= H]. eauto 6.
Qed.

(** X10. The answer index [generate_exam] stores for a choice question, when
    it is not 0: the answer text and the option at that index are strings,
    and trimmed they are equal or one contains the other. *)
Theorem answer_index_points_at_match (answer_text options : pyval) (k : nat) :
  answer_index_of answer_text options = Ok k -> (0 < k)%nat ->
  exists a opts o,
    answer_text = PStr a /\ iter options = Ok opts /\ opts !! k = Some (PStr o) /\
    (strip a = strip o \/ is_substring (strip a) (strip o) = true
     \/ is_substring (strip o) (strip a) = true).
Proof.
  unfold answer_index_of. intros H Hk.
  destruct (truthy answer_text && truthy options); [|injection H as <-; lia].
  inv_bind H. rename x into opts. inv_bind H. rename x into exact.
  destruct ((default 0%nat exact =? 0)%nat && truthy answer_text) eqn:E.
  - inv_bind H. injection H as H. destruct x as [j|]; cbn [default from_option id] in H.
    + subst j. apply first_index_Some in Hx1 as (k' & y & -> & Hy & Hp & _).
      apply partial_test_true in Hp as (a & o & -> & -> & Hm).
      exists a, opts, o. cbn [Nat.add] in *. tauto.
    + apply andb_prop in E as [E _]. apply Nat.eqb_eq in E.
      destruct exact; cbn [default from_option id] in *; lia.
  - injection H as H. destruct exact as [j|]; cbn [default from_option id] in H; [|lia].
    subst j. apply first_index_Some in Hx0 as (k' & y & -> & Hy & Hp & _).
    apply exact_test_true in Hp as (a & o & -> & -> & Hm).
    exists a, opts, o. cbn [Nat.add] in *. tauto.
Qed.

(** The answer y among the options w, x, y, z. *)
Lemma answer_index_points_at_match_witness :
  exists a opts o,
    Sample.text "y" = PStr a /\ iter Sample.options4 = Ok opts /\
    opts !! 2%nat = Some (PStr o).
Proof.
  destruct (answer_index_points_at_match (Sample.text "y") Sample.options4 2
              eq_refl ltac:(lia)) as (a & opts & o & Ha & Ho & Hk & _).
  exists a, opts, o. repeat split; assumption.
Defined.

Lemma answer_index_of_exact (a : pystr) (opts : list pyval) (k : nat) (o : pystr) (idx : nat) :
  answer_index_of (PStr a) (PList opts) = Ok idx ->
  a <> [] -> opts !! k = Some (PStr o) -> strip o = strip a ->
  (forall j o', (j < k)%nat -> opts !! j = Some (PStr o') -> strip o' <> strip a) ->
  idx = k.
Proof.
  intros H Ha Hk Ho Hfirst.
  set (p := fun option : pyval =>
              a0 ← strip_m (PStr a); o0 ← strip_m option; Ok (pystr_eqb a0 o0)).
  assert (Hpk : p (PStr o) = Ok true).
  { unfold p. cbn [strip_m]. run. f_equal. apply bool_decide_eq_true_2. congruence. }
  unfold answer_index_of in H. rewrite (truthy_str_nonempty a Ha) in H.
  assert (Hopts : truthy (PList opts) = true) by (destruct opts; [discriminate Hk | reflexivity]).
  rewrite Hopts in H. cbn [andb iter] in H. run_in H. fold p in H.
  inv_bind H. rename x into exact.
  assert (Hexact : exact = Some k).
  { destruct exact as [j|].
    - apply first_index_Some in Hx as (j' & y & -> & Hy & Hp & Hbefore).
      cbn [Nat.add]. f_equal.
      destruct (Nat.lt_trichotomy j' k) as [Hlt | [-> | Hgt]]; [|reflexivity|].
      + apply exact_test_true in Hp as (a' & o' & [= <-] & -> & Hm).
        now destruct (Hfirst j' o' Hlt Hy).
      + rewrite (Hbefore k (PStr o) Hgt Hk) in Hpk. discriminate.
    - apply first_index_None in Hx. rewrite Forall_lookup in Hx.
      rewrite (Hx k _ Hk) in Hpk. discriminate. }
  subst exact. cbn [default from_option id] in H. destruct k as [|k].
  - cbn [Nat.eqb andb] in H. inv_bind H. injection H as <-.
    destruct opts as [|y opts]; [discriminate|]. cbn in Hk. injection Hk as ->.
    cbn [first_index strip_m] in Hx0. run_in Hx0. rewrite Ho, is_substring_refl in Hx0.
    run_in Hx0. now injection Hx0 as <-.
  - cbn [Nat.eqb andb] in H. now injection H as <-.
Qed.

(** X11. Generator and scoring engine agree. When the answer text of a
    candidate is not empty and its first option that equals it (trimmed) is
    the [k]-th one, with [k] at most 5, the generated question stores the
    index [k], and a student who answers with the [k]-th letter is marked
    correct and earns the 2 points. *)
Theorem exact_option_letter_scores (x : pyval) (q : Question) (a o : pystr)
    (opts : list pyval) (k i : nat) (answers : answers_map) :
  choice_question x = Ok q ->
  get_m x (lit "options") (PList []) = Ok (PList opts) ->
  get_m x (lit "answer") (PStr []) = Ok (PStr a) ->
  a <> [] -> opts !! k = Some (PStr o) -> strip o = strip a ->
  (forall j o', (j < k)%nat -> opts !! j = Some (PStr o') -> strip o' <> strip a) ->
  (k <= 5)%nat ->
  answers !! str_of_nat i = Some (PStr [65 + Z.of_nat k]) ->
  q_answer q = PInt (Z.of_nat k) /\
  exists qr,
    score_question i (question_to_py q) answers = Ok (2, 2, qr) /\
    qr_is_correct qr = true.
Proof.
  intros Hq Hopts Hans Ha Hk Ho Hfirst Hk5 Hu.
  unfold choice_question in Hq. rewrite Hopts, Hans in Hq. run_in Hq.
  inv_bind Hq. rename x0 into idx.
  pose proof (answer_index_of_exact a opts k o idx Hx Ha Hk Ho Hfirst) as ->.
  inv_bind Hq. inv_bind Hq. injection Hq as <-. cbn [q_answer]. split; [reflexivity|].
  eexists. split.
  - unfold question_to_py. cbn [q_type q_question q_options q_answer q_answer_text
                                q_analysis q_score].
    apply (score_question_entry _ i answers 2 true); [reflexivity|].
    cbv zeta. rewrite Hu. cbn [default from_option id].
    change (dict_get _ (lit "type") PNone) with (PStr Lit.choice).
    change (dict_get _ (lit "answer") (PStr [])) with (PInt (Z.of_nat k)).
    change (eq_str (PStr Lit.choice) Lit.choice) with true. cbv iota.
    unfold choice_is_correct. cbv zeta. cbn [isinstance_int str truthy].
    assert (Hl : upper (strip [65 + Z.of_nat k]) = [65 + Z.of_nat k]).
    { assert (Hc : (k = 0 \/ k = 1 \/ k = 2 \/ k = 3 \/ k = 4 \/ k = 5)%nat) by lia.
      destruct Hc as [->|[->|[->|[->|[->| ->]]]]]; reflexivity. }
    rewrite Hl, is_letter_single.
    replace ((65 <=? 65 + Z.of_nat k) && (65 + Z.of_nat k <=? 70)) with true by lia.
    cbn [andb ord]. run. f_equal. lia.
  - reflexivity.
Qed.

(** The second candidate of the sample, answered with C. *)
Lemma exact_option_letter_scores_witness :
  exists q,
    choice_question Sample.cand_c2 = Ok q /\ q_answer q = PInt 2 /\
    exists qr,
      score_question 1 (question_to_py q) (<[lit "1" := Sample.text "C"]> ∅)
        = Ok (2, 2, qr) /\
      qr_is_correct qr = true.
Proof.
  exists Sample.q2.
  assert (Hq : choice_question Sample.cand_c2 = Ok Sample.q2) by reflexivity.
  assert (Hu : (<[lit "1" := Sample.text "C"]> ∅ : answers_map) !! str_of_nat 1
               = Some (PStr [65 + Z.of_nat 2])) by (vm_compute; reflexivity).
  split; [exact Hq|].
  refine (exact_option_letter_scores Sample.cand_c2 Sample.q2 (lit "y") (lit "y")
            [Sample.text "w"; Sample.text "x"; Sample.text "y"; Sample.text "z"]
            2 1 (<[lit "1" := Sample.text "C"]> ∅)
            Hq eq_refl eq_refl _ eq_refl eq_refl _ _ Hu).
  - discriminate.
  - intros [|[|j]] o' Hj Ho; [| |lia]; cbn in Ho; injection Ho as <-;
      vm_compute; discriminate.
  - lia.
Defined.

(** X12. The boolean [generate_exam] stores for a judge question: it is false
    exactly when the answer text of the candidate is a string that, trimmed
    and lower-cased, contains one of the six negative words; the positive
    words play no role, and every other text gives true. *)
Theorem judge_answer_text_decides (x : pyval) (q : Question) :
  judge_question x = Ok q ->
  exists b : bool,
    q_answer q = PBool b /\ q_score q = 1 /\ q_type q = Lit.judge /\
    (b = false <->
     exists a w,
       get_m x (lit "answer") (PStr []) = Ok (PStr a) /\
       w ∈ false_words /\ is_substring w (strip (lower a)) = true).
Proof.
  unfold judge_question. intros H. inv_bind H. rename x0 into answer_text.
  inv_bind H. rename x0 into b. inv_bind H. inv_bind H. injection H as <-.
  exists b. cbn [q_answer q_score q_type]. repeat split.
  - intros ->. unfold answer_bool_of in Hx0.
    destruct (truthy answer_text); [|discriminate].
    inv_bind Hx0. destruct answer_text; try discriminate.
    cbn [lower_m] in Hx3. injection Hx3 as <-.
    destruct (existsb _ false_words) eqn:E.
    + apply existsb_exists in E as (w & Hw & Hsub). exists s, w.
      split; [exact Hx|]. split; [now apply list_elem_of_In | assumption].
    + destruct (existsb _ true_words); discriminate.
  - intros (a & w & Ha & Hw & Hsub). rewrite Hx in Ha. injection Ha as ->.
    unfold answer_bool_of in Hx0.
    assert (Ht : truthy (PStr a) = true).
    { destruct a; [|reflexivity]. exfalso.
      destruct w as [|c w]; [|discriminate Hsub].
      assert (Hn : [] ∉ false_words)
        by (apply (bool_decide_unpack _); vm_compute; exact I).
      contradiction. }
    rewrite Ht in Hx0. cbn [lower_m] in Hx0. run_in Hx0.
    assert (E : existsb (fun word => is_substring word (strip (lower a))) false_words = true).
    { apply existsb_exists. exists w. split; [now apply list_elem_of_In | assumption]. }
    rewrite E in Hx0. now injection Hx0 as <-.
Qed.

(** The judge candidate of the sample. *)
Lemma judge_answer_text_decides_witness :
  exists b : bool, q_answer Sample.q3 = PBool b /\ q_score Sample.q3 = 1.
Proof.
  destruct (judge_answer_text_decides Sample.cand_j Sample.q3 eq_refl)
    as (b & Hb & Hs & _).
  exists b. split; assumption.
Defined.

(** ** The session store *)

Lemma session_file_inj a b : session_file (PStr a) = session_file (PStr b) -> a = b.
Proof. unfold session_file. cbn [str]. apply app_inv_tail. Qed.

Lemma record_file_inj a b : record_file (PStr a) = record_file (PStr b) -> a = b.
Proof. unfold record_file. cbn [str]. apply app_inv_tail. Qed.







Lemma submit_exam_Success st now sid r s' st' :
  submit_exam st now (submit_request sid) = (Success (r, s'), st') ->
  exists s,
    session_files st !! session_file (PStr sid) = Some (Stored s) /\
    r = calculate_exam_score (exam_data s) (answers s) /\
    session_id s' = session_id s /\ student_name s' = student_name s /\
    exam_data s' = exam_data s /\ start_time s' = start_time s /\
    answers s' = answers s /\
    sess_status s' = completed /\ end_time s' = Some now /\ score_result s' = Some r /\
    st' = write_record (write_session st (session_file (PStr sid)) s')
            (record_file (PStr sid)) s'.
Proof.
  unfold submit_exam, submit_request.
  change (truthy (PDict _)) with true. cbn [negb].
  change (dict_get _ (lit "session_id") PNone) with (PStr sid).
  destruct (negb (truthy (PStr sid))); [discriminate|].
  destruct (session_files st !! session_file (PStr sid)) as [[|s]|]; try discriminate.
  intros [= <- <- <-]. exists s. now repeat split.
Qed.

Lemma endswith_app a b : endswith (a ++ b) b = true.
Proof.
  unfold endswith. rewrite rev_app_distr. generalize (rev b) (rev a).
  induction l as [|c l IH]; intros k; cbn; [reflexivity|].
  now rewrite Z.eqb_refl, IH.
Qed.

Lemma elem_of_get_exam_records st names sm :
  sm ∈ get_exam_records st names <-> archived st names sm.
Proof.
  unfold get_exam_records. now rewrite sort_desc_perm, read_records_archived.
Qed.

(** X16. A submitted session whose exam data is a JSON object: the archive
    unit is what [get_exam_record_detail] returns, and, once [os.listdir]
    names the unit, [get_exam_records] lists a summary of it with the
    session's id, the submission time as [end_time], the status [completed]
    and the scores of the submission. *)
Theorem submitted_session_is_listed (st : store) (now sid : pystr)
    (r : ScoreResult) (s' : Session) (st' : store) (d : pydict)
    (names : list pystr) :
  submit_exam st now (submit_request sid) = (Success (r, s'), st') ->
  exam_data s' = PDict d ->
  record_file (PStr sid) ∈ names ->
  get_exam_record_detail st' sid = Success s' /\
  exists sm,
    sm ∈ get_exam_records st' names /\
    sm_session_id sm = session_id s' /\ sm_end_time sm = now /\
    sm_status sm = completed /\
    sm_total_score sm = sr_total_score r /\ sm_full_score sm = sr_full_score r /\
    sm_percentage sm = sr_percentage r.
Proof.
  intros H Hd Hin.
  destruct (submit_exam_Success _ _ _ _ _ _ H)
    as (s & Hs & Hr & Hid & _ & _ & _ & _ & Hst & Hend & Hsc & ->).
  assert (Hrec : record_files
                   (write_record (write_session st (session_file (PStr sid)) s')
                      (record_file (PStr sid)) s') !! record_file (PStr sid)
                 = Some (Stored s')).
  { unfold write_record. cbn [record_files]. apply lookup_insert_eq. }
  split; [unfold get_exam_record_detail; now rewrite Hrec|].
  assert (Hsum : exists sm, summarize (Stored s') = Ok sm /\
            sm_session_id sm = session_id s' /\ sm_end_time sm = now /\
            sm_status sm = completed /\
            sm_total_score sm = sr_total_score r /\ sm_full_score sm = sr_full_score r /\
            sm_percentage sm = sr_percentage r).
  { unfold summarize. rewrite Hd. cbn [get_m]. run. eexists. split; [reflexivity|].
    cbn. rewrite Hend, Hsc, Hst. now repeat split. }
  destruct Hsum as (sm & Hsum & Hprops). exists sm. split; [|exact Hprops].
  apply elem_of_get_exam_records. exists (record_file (PStr sid)), (Stored s').
  repeat split; try assumption. unfold record_file. apply endswith_app.
Qed.

(** The sample session, submitted at 11:00. *)
Lemma submitted_session_is_listed_witness :
  exists sm,
    sm ∈ get_exam_records Sample.st3 [record_file (PStr Sample.sid)] /\
    sm_end_time sm = Sample.t4.
Proof.
  assert (H : submit_exam Sample.st2 Sample.t4 (submit_request Sample.sid)
              = (Success (calculate_exam_score (exam_to_py Sample.exam) Sample.answers_aba,
                          Sample.submitted), Sample.st3))
    by (vm_compute; reflexivity).
  destruct (submitted_session_is_listed _ _ _ _ _ _
              match exam_to_py Sample.exam with PDict d => d | _ => [] end
              [record_file (PStr Sample.sid)] H)
    as (_ & sm & Hin & _ & Hend & _).
  - vm_compute. reflexivity.
  - apply list_elem_of_here.
  - exists sm. split; assumption.
Defined.

(** X17. A submitted session whose exam data is not a JSON object (as
    [create_exam_session] and [start_exam] accept it): the submission
    succeeds with the zero result of the scoring engine and is archived,
    [get_exam_record_detail] returns it, but [get_exam_records] never lists
    it: every summary it lists comes from another unit, which was there
    before. *)
Theorem non_object_exam_is_archived_but_unlisted (st : store) (now sid : pystr)
    (r : ScoreResult) (s' : Session) (st' : store) :
  submit_exam st now (submit_request sid) = (Success (r, s'), st') ->
  (forall d, exam_data s' <> PDict d) ->
  voided r /\
  get_exam_record_detail st' sid = Success s' /\
  forall names sm,
    sm ∈ get_exam_records st' names ->
    exists name f,
      name ∈ names /\ name <> record_file (PStr sid) /\
      record_files st !! name = Some f /\ summarize f = Ok sm.
Proof.
  intros H Hd.
  destruct (submit_exam_Success _ _ _ _ _ _ H)
    as (s & Hs & Hr & _ & _ & Hex & _ & _ & _ & _ & _ & ->).
  split; [|split].
  - subst r. rewrite <- Hex. unfold calculate_exam_score, score_body.
    destruct (exam_data s') as [| | | | |d]; try (cbn; repeat split; discriminate).
    now destruct (Hd d).
  - unfold get_exam_record_detail, write_record. cbn [record_files].
    now rewrite lookup_insert_eq.
  - intros names sm Hin. apply elem_of_get_exam_records in Hin
      as (name & f & Hn & _ & Hf & Hsum).
    exists name, f. unfold write_record in Hf. cbn [record_files write_session] in Hf.
    destruct (decide (record_file (PStr sid) = name)) as [<- | Hne].
    + rewrite lookup_insert_eq in Hf. injection Hf as <-. exfalso.
      unfold summarize in Hsum.
      destruct (exam_data s') as [| | | | |d]; try discriminate. now destruct (Hd d).
    + rewrite lookup_insert_ne in Hf by assumption. repeat split; try assumption.
      congruence.
Qed.

(** A session started on an exam that is a bare string, then submitted. *)
Lemma non_object_exam_is_archived_but_unlisted_witness :
  get_exam_records
    (submit_exam
       (start_exam Sample.st0 Sample.stamp 42 Sample.t0
          (PDict [(lit "exam", Sample.text "paper")])).2
       Sample.t4 (submit_request Sample.sid)).2
    [record_file (PStr Sample.sid)] = [].
Proof.
  pose (st1 := (start_exam Sample.st0 Sample.stamp 42 Sample.t0
                  (PDict [(lit "exam", Sample.text "paper")])).2).
  assert (H : exists r s' st', submit_exam st1 Sample.t4 (submit_request Sample.sid)
                = (Success (r, s'), st') /\ exam_data s' = Sample.text "paper").
  { eexists _, _, _. split; vm_compute; reflexivity. }
  destruct H as (r & s' & st' & H & Hd). fold st1. rewrite H. cbn [snd].
  destruct (non_object_exam_is_archived_but_unlisted _ _ _ _ _ _ H) as (_ & _ & Hl).
  - intros d. rewrite Hd. discriminate.
  - destruct (get_exam_records st' [record_file (PStr Sample.sid)]) as [|sm l] eqn:E;
      [reflexivity|].
    destruct (Hl [record_file (PStr Sample.sid)] sm) as (name & f & Hn & Hne & _).
    + rewrite E. apply list_elem_of_here.
    + apply list_elem_of_singleton in Hn. congruence.
Defined.

Lemma pystr_ltb_irrefl a : pystr_ltb a a = false.
Proof.
  induction a as [|x a IH]; [reflexivity|]. cbn [pystr_ltb].
  rewrite Z.ltb_irrefl, Z.eqb_refl, IH. reflexivity.
Qed.

Lemma filter_insert_desc (t : pystr) (x : Summary) (l : list Summary) :
  filter (fun sm => sm_end_time sm = t) (insert_desc x l) =
  filter (fun sm => sm_end_time sm = t) (x :: l).
Proof.
  induction l as [|y l IH]; [reflexivity|]. cbn [insert_desc].
  destruct (pystr_ltb (sm_end_time x) (sm_end_time y)) eqn:E; [|reflexivity].
  rewrite filter_cons, IH, !filter_cons.
  destruct (decide (sm_end_time y = t)) as [Hy|Hy];
    destruct (decide (sm_end_time x = t)) as [Hx|Hx]; try reflexivity.
  rewrite Hx, Hy, pystr_ltb_irrefl in E. discriminate.
Qed.

(** X18. The sort of [get_exam_records] is stable: the records that share an
    [end_time] are listed in the order in which the loop over [os.listdir]
    collected them. *)
Theorem equal_end_times_keep_listing_order (st : store) (names : list pystr)
    (t : pystr) :
  filter (fun sm => sm_end_time sm = t) (get_exam_records st names) =
  filter (fun sm => sm_end_time sm = t) (read_records st names).
Proof.
  unfold get_exam_records. induction (read_records st names) as [|x l IH];
    [reflexivity|].
  cbn [sort_desc foldr]. fold (sort_desc l).
  now rewrite filter_insert_desc, !filter_cons, IH.
Qed.

(** X19. The session id of [start_exam] is a function of the clock's second and
    of the hash of the exam: a second call with the same two, whatever the
    store holds by then, succeeds with the same id and replaces the session,
    so that its saved answers are empty again; other sessions keep theirs. *)
Theorem restart_with_same_id_wipes_answers (st st2 : store) (stamp : pystr)
    (h : Z) (now now2 : pystr) (data : pyval) (sid : pystr) (exam : pyval)
    (t0 : pystr) (st1 : store) :
  start_exam st stamp h now data = (Success (sid, exam, t0), st1) ->
  exists st3,
    start_exam st2 stamp h now2 data = (Success (sid, exam, now2), st3) /\
    get_saved_answers st3 sid = Success ∅ /\
    forall other, other <> sid ->
      get_saved_answers st3 other = get_saved_answers st2 other.
Proof.
  unfold start_exam. destruct (negb (truthy data)); [discriminate|].
  destruct data as [| | | | |d]; try discriminate.
  destruct (negb (truthy (dict_get d (lit "exam") PNone))); [discriminate|].
  intros H. injection H as Hsid Hexam _ _.
  assert (Hsid' : lit "exam_" ++ stamp ++ lit "_" ++ str_of_Z h = sid) by exact Hsid.
  rewrite Hsid', Hexam. eexists. split; [reflexivity|].
  unfold get_saved_answers. split.
  - now rewrite lookup_write_session.
  - intros other Hne. unfold write_session. cbn [session_files].
    rewrite lookup_insert_ne; [reflexivity|].
    intros E. apply session_file_inj in E. congruence.
Qed.

(** The sample session, started again after its three saves. *)
Lemma restart_with_same_id_wipes_answers_witness :
  exists st3,
    start_exam Sample.st2 Sample.stamp 42 Sample.t4 Sample.start_request
      = (Success (Sample.sid, exam_to_py Sample.exam, Sample.t4), st3) /\
    get_saved_answers st3 Sample.sid = Success ∅.
Proof.
  assert (H : start_exam Sample.st0 Sample.stamp 42 Sample.t0 Sample.start_request
              = (Success (Sample.sid, exam_to_py Sample.exam, Sample.t0), Sample.st1))
    by (vm_compute; reflexivity).
  destruct (restart_with_same_id_wipes_answers Sample.st0 Sample.st2 Sample.stamp 42
              Sample.t0 Sample.t4 Sample.start_request Sample.sid
              (exam_to_py Sample.exam) Sample.t0 Sample.st1 H) as (st3 & Hs & Hg & _).
  exists st3. split; assumption.
Defined.



(** ** Uploads and the two caches *)

Lemma is_substring_single c s : is_substring [c] s = true <-> c ∈ s.
Proof.
  induction s as [|x s IH]; cbn [is_substring is_prefix].
  - rewrite elem_of_nil. split; [discriminate | tauto].
  - rewrite elem_of_cons, <- IH, andb_true_r, orb_true_iff, Z.eqb_eq. tauto.
Qed.

Lemma rsplit1_no_sep sep s : sep ∉ s -> rsplit1 sep s = [s].
Proof.
  induction s as [|x s IH]; [reflexivity|]. rewrite not_elem_of_cons.
  intros [Hx Hs]. cbn [rsplit1]. rewrite (IH Hs).
  destruct (Z.eqb_spec x sep); [congruence | reflexivity].
Qed.

Lemma rsplit1_last sep a e : sep ∉ e -> rsplit1 sep (a ++ sep :: e) = [a; e].
Proof.
  intros He. induction a as [|x a IH]; cbn [app rsplit1].
  - rewrite (rsplit1_no_sep _ _ He), Z.eqb_refl. reflexivity.
  - now rewrite IH.
Qed.

Lemma split_last_sep (sep : Z) (s : pystr) :
  sep ∈ s -> exists a e, s = a ++ sep :: e /\ sep ∉ e.
Proof.
  induction s as [|x s IH]; [now rewrite elem_of_nil|].
  destruct (decide (sep ∈ s)) as [Hin|Hnin].
  - intros _. destruct (IH Hin) as (a & e & -> & He). now exists (x :: a), e.
  - rewrite elem_of_cons. intros [->|?]; [|contradiction]. now exists [], s.
Qed.

Lemma lower_char_dot x : lower_char x = 46 <-> x = 46.
Proof. unfold lower_char. destruct ((65 <=? x) && (x <=? 90)) eqn:E; lia. Qed.

Lemma endswith_txt (a e : pystr) :
  46 ∉ e ->
  endswith (lower (a ++ 46 :: e)) (lit ".txt") = pystr_eqb (lower e) (lit "txt").
Proof.
  intros He. unfold endswith, lower. rewrite map_app, rev_app_distr. cbn [map rev].
  rewrite <- app_assoc. cbn [app]. replace (lower_char 46) with 46 by reflexivity.
  change (rev (lit ".txt")) with [116; 120; 116; 46].
  assert (Hl : 46 ∉ rev (map lower_char e)).
  { rewrite elem_of_rev, list_elem_of_fmap. intros (x & Hx & Hin).
    symmetry in Hx. apply (proj1 (lower_char_dot x)) in Hx. subst x. contradiction. }
  unfold pystr_eqb. remember (rev (map lower_char e)) as l eqn:El.
  assert (Hm : map lower_char e = rev l) by (now rewrite El, rev_involutive).
  rewrite Hm. clear El Hm He e.
  change (lit "txt") with (rev [116; 120; 116]).
  assert (Hrev : forall k : pystr, rev l = rev k <-> l = k).
  { intros k. split; [|now intros ->]. intros E. apply (f_equal (@rev Z)) in E.
    now rewrite !rev_involutive in E. }
  destruct l as [|x1 [|x2 [|x3 [|x4 l]]]]; cbn [app is_prefix];
    repeat rewrite not_elem_of_cons in Hl;
    repeat match goal with
           | |- context [?x =? ?y] => destruct (Z.eqb_spec x y); cbn [andb]
           end;
    try (symmetry; apply bool_decide_eq_false_2; rewrite Hrev; congruence);
    try (symmetry; apply bool_decide_eq_true_2; rewrite Hrev; congruence);
    try (exfalso; tauto); try (exfalso; lia).
Qed.

(** X21. [allowed_file] never fails and accepts exactly the names that end in
    ".txt", in any mix of upper and lower case: only the text after the last
    dot counts. *)
Theorem allowed_file_spec (filename : pystr) :
  allowed_file filename = Ok (endswith (lower filename) (lit ".txt")).
Proof.
  unfold allowed_file. destruct (is_substring (lit ".") filename) eqn:E.
  - apply (is_substring_single 46) in E.
    destruct (split_last_sep _ _ E) as (a & e & -> & He).
    rewrite (rsplit1_last _ _ _ He). cbn [lookup list_lookup].
    rewrite (endswith_txt _ _ He). unfold ALLOWED_EXTENSIONS. cbn [existsb].
    now rewrite orb_false_r.
  - f_equal. symmetry. apply not_true_is_false. intros H. apply not_true_iff_false in E.
    apply E. apply (is_substring_single 46). unfold endswith in H.
    change (rev (lit ".txt")) with [116; 120; 116; 46] in H.
    assert (Hin : 46 ∈ rev (lower filename)).
    { destruct (rev (lower filename)) as [|x1 [|x2 [|x3 [|x4 l]]]];
        cbn [is_prefix] in H; rewrite ?andb_false_r in H; try discriminate H.
      apply andb_prop in H as [_ H]. apply andb_prop in H as [_ H].
      apply andb_prop in H as [_ H]. apply andb_prop in H as [H _].
      apply Z.eqb_eq in H. rewrite !elem_of_cons. tauto. }
    rewrite elem_of_rev in Hin. unfold lower in Hin.
    apply list_elem_of_fmap in Hin as (x & Hx & Hin).
    symmetry in Hx. apply (proj1 (lower_char_dot x)) in Hx. now subst.
Qed.

Lemma replace_char_notin (a b : Z) (s : pystr) : a <> b -> a ∉ replace_char a b s.
Proof.
  intros Hab. unfold replace_char. rewrite list_elem_of_fmap. intros (c & Hc & _).
  destruct (Z.eqb_spec c a); congruence.
Qed.

Lemma replace_char_keeps (a b x : Z) (s : pystr) :
  x <> b -> x ∉ s -> x ∉ replace_char a b s.
Proof.
  intros Hxb Hs. unfold replace_char. rewrite list_elem_of_fmap. intros (c & Hc & Hin).
  destruct (Z.eqb_spec c a); [congruence | now subst].
Qed.

(** X22. The path [get_cache_path] builds is a file directly inside the cache
    folder: the name it puts before ".json" contains neither a slash nor a
    backslash, whatever the chapter, the concept and the type are. *)
Theorem cache_path_stays_in_cache_dir (chapter concept concept_type : pyval) :
  exists name,
    get_cache_path chapter concept concept_type
      = lit "cache/explanations/" ++ name ++ lit ".json" /\
    (47 ∉ name) /\ (92 ∉ name).
Proof.
  exists (safe_name chapter concept concept_type). split; [reflexivity|]. split.
  - unfold safe_name. apply replace_char_keeps; [discriminate|].
    apply replace_char_notin. discriminate.
  - unfold safe_name. apply replace_char_notin. discriminate.
Qed.


Section MemoryCacheFacts.
Context {T : Type}.
Variable fresh : T -> T -> bool.

Lemma coherent_step (mc : MemoryCache.t T) (c : MemoryCache.call T) :
  MemoryCache.coherent mc -> MemoryCache.coherent (MemoryCache.step fresh mc c).
Proof.
  intros H. destruct c as [now key dflt | now key value ttl | key |];
    cbn [MemoryCache.step].
  - unfold MemoryCache.get.
    destruct (MemoryCache._cache mc !! key) as [v|] eqn:Ec; [|exact H].
    destruct (MemoryCache._timestamps mc !! key) as [stamp|] eqn:Et; [|exact H].
    destruct (fresh now stamp); [exact H|]. cbn [snd]. intros k. cbn.
    destruct (decide (key = k)) as [->|Hne].
    + rewrite !lookup_delete_eq. split; intros [? ?]; discriminate.
    + rewrite !lookup_delete_ne by assumption. apply H.
  - intros k. cbn. destruct (decide (key = k)) as [->|Hne].
    + rewrite !lookup_insert_eq. split; eauto.
    + rewrite !lookup_insert_ne by assumption. apply H.
  - intros k. cbn. destruct (decide (key = k)) as [->|Hne].
    + rewrite !lookup_delete_eq. split; intros [? ?]; discriminate.
    + rewrite !lookup_delete_ne by assumption. apply H.
  - intros k. cbn. rewrite !lookup_empty. split; intros [? ?]; discriminate.
Qed.

Lemma coherent_init : MemoryCache.coherent (@MemoryCache.init T).
Proof. intros k. cbn. rewrite !lookup_empty. split; intros [? ?]; discriminate. Qed.

(** X24. Whatever calls of [get], [set], [delete] and [clear] a [MemoryCache]
    has served since its creation, its two dictionaries have the same keys,
    and [get] returns a value: the [KeyError] of the time stamp lookup never
    occurs. *)
Theorem cache_get_never_raises (calls : list (MemoryCache.call T)) (now : T)
    (key : pystr) (default : pyval) :
  let mc := foldl (MemoryCache.step fresh) MemoryCache.init calls in
  MemoryCache.coherent mc /\
  exists v, (MemoryCache.get fresh mc now key default).1 = Ok v.
Proof.
  cbv zeta.
  assert (H : MemoryCache.coherent
                (foldl (MemoryCache.step fresh) MemoryCache.init calls)).
  { generalize coherent_init. generalize (@MemoryCache.init T).
    induction calls as [|c calls IH]; intros mc Hmc; [exact Hmc|].
    cbn [foldl]. apply IH. now apply coherent_step. }
  split; [exact H|]. unfold MemoryCache.get.
  destruct (MemoryCache._cache _ !! key) as [v|] eqn:Ec; [|eauto].
  destruct (proj1 (H key)) as [stamp ->]; [rewrite Ec; eauto|].
  destruct (fresh now stamp); eauto.
Qed.


End MemoryCacheFacts.
